(** * kafka_rolling_restart: the rolling decommission sequencer and its driver

    A shallow embedding of

    - [kafka_utils/kafka_rolling_restart/rolling_decommission.py]
      ([decommission_broker], [execute_rolling_decommission]) and
    - [kafka_utils/kafka_rolling_restart/main.py]
      ([validate_opts], [validate_broker_ids_subset], [get_task_class],
      [print_brokers], [ask_confirmation], [run]).

    Python code that prints, talks to brokers and raises exceptions is
    embedded in a state-and-exception monad [M].  The state is the list of
    everything the process has done so far (the [trace]) together with the
    lines still waiting on standard input.  The outside world (plugin
    loading, task execution, cluster health, SSH connectivity) is an
    [environment] of functions that may look at the whole history. *)

From Stdlib Require Import List ZArith Lia Bool String Ascii DecimalString.
Import ListNotations.
Local Open Scope string_scope.
Local Open Scope Z_scope.

Set Implicit Arguments.

(** ** Data *)

(** A broker as [get_broker_list] yields it: the pair [(id, host)]. *)
Definition broker : Type := (Z * string)%type.

(** The two base classes listed in [tasks_classes]. *)
Inductive task_class : Type := PreStopTask | PostStopTask.

Definition task_class_is (a b : task_class) : bool :=
  match a, b with
  | PreStopTask, PreStopTask => true
  | PostStopTask, PostStopTask => true
  | _, _ => false
  end.

(** A class object found by [dynamic_import], identified by its name. *)
Definition py_class : Type := string.

(** A task instance [imported_class(task_args)]. *)
Record task_instance : Type := mkTask { task_cls : py_class; task_arg : string }.

(** The exceptions that travel through the embedded code.  [SystemExit] is
    what [sys.exit(code)] raises. *)
Inductive exn : Type :=
| TaskFailedException
| WaitTimeoutException
| SshError
| TypeError
| EOFError
| AttributeError
| SystemExit (code : Z).

(** Everything observable the process does.  Calls to the outside world
    record how they ended ([ok = false]: the call raised). *)
Inductive event : Type :=
| EvPrint (line : string)
| EvSshOpen (host : string)
| EvSshFail (host : string)
| EvSshClose (host : string)
| EvTask (t : task_instance) (host : string) (ok : bool)
| EvWait (hosts : list string) (jolokia_port : Z) (jolokia_prefix : string)
         (check_interval check_count unhealthy_time_limit : Z) (ok : bool)
| EvDecommission (host : string) (stop_command : string)
| EvCommand (host : string) (command : string).

Record world : Type := mkWorld { trace : list event; stdin : list string }.

(** What [config.get_cluster_config] returns; only [name] is read here. *)
Record cluster_config : Type := mkClusterConfig { name : string }.

(** The outside world.  The calls that act on the cluster receive the
    history so far. *)
Record environment : Type := mkEnv {
  (** [config.get_cluster_config(cluster_type, cluster_name, base_path)]. *)
  get_cluster_config : string -> option string -> option string -> cluster_config;
  (** [util.get_broker_list(cluster_config)]: the ordered [(id, host)] list. *)
  get_broker_list : cluster_config -> list broker;
  (** [dynamic_import(func, task_class)]: the class found, or [None]. *)
  dynamic_import : string -> task_class -> option py_class;
  (** does [t.run(host)] return ([true]) or raise [TaskFailedException]? *)
  task_runs : list event -> task_instance -> string -> bool;
  (** does [wait_for_stable_cluster] return or raise
      [WaitTimeoutException]? *)
  cluster_settles : list event -> list string -> Z -> string -> Z -> Z -> Z -> bool;
  (** does [ssh(host, ...)] connect? *)
  ssh_connects : list event -> string -> bool
}.

(** ** The monad *)

Inductive result (A : Type) : Type :=
| Return (a : A)
| Raise (e : exn).
Arguments Return {A} a.
Arguments Raise {A} e.

Definition M (A : Type) : Type := world -> result A * world.

Definition ret {A} (a : A) : M A := fun w => (Return a, w).

Definition bind {A B} (m : M A) (f : A -> M B) : M B :=
  fun w => match m w with
           | (Return a, w') => f a w'
           | (Raise e, w') => (Raise e, w')
           end.

Definition raise {A} (e : exn) : M A := fun w => (Raise e, w).

Definition emit (e : event) : M unit :=
  fun w => (Return tt, mkWorld (trace w ++ [e]) (stdin w)).

Declare Scope py_scope.
Delimit Scope py_scope with py.
Notation "x <- m ;; k" := (bind m (fun x => k))
  (at level 61, m at next level, right associativity) : py_scope.
Notation "m ;; k" := (bind m (fun _ => k))
  (at level 61, right associativity) : py_scope.
Local Open Scope py_scope.

Definition print (line : string) : M unit := emit (EvPrint line).

Definition sys_exit {A} (code : Z) : M A := raise (SystemExit code).

(** [try: m except C1: h1 except C2: h2 ...]: the first clause that matches
    handles the exception; what a handler raises is not caught again. *)
Fixpoint handle {A} (clauses : list ((exn -> bool) * M A)) (e : exn) : M A :=
  match clauses with
  | [] => raise e
  | (matches, handler) :: clauses' =>
      if matches e then handler else handle clauses' e
  end.

Definition try_except {A} (m : M A) (clauses : list ((exn -> bool) * M A)) : M A :=
  fun w => match m w with
           | (Raise e, w') => handle clauses e w'
           | r => r
           end.

(** [for x in xs: s = body(x, s)], with the loop's variables in [s]. *)
Fixpoint for_fold {A S} (xs : list A) (s : S) (body : A -> S -> M S) : M S :=
  match xs with
  | [] => ret s
  | x :: xs' => s' <- body x s ;; for_fold xs' s' body
  end.

(** [for x in xs: body(x)]. *)
Fixpoint for_each {A} (xs : list A) (body : A -> M unit) : M unit :=
  match xs with
  | [] => ret tt
  | x :: xs' => body x ;; for_each xs' body
  end.

(** ** Python helpers *)

(** [str(n)] for an integer. *)
Definition str_of_int (n : Z) : string := NilZero.string_of_int (Z.to_int n).

(** [l[skip:]]: a negative start counts from the end of the list. *)
Definition slice_from {A} (skip : Z) (l : list A) : list A :=
  if 0 <=? skip then skipn (Z.to_nat skip) l
  else skipn (Z.to_nat (Z.max 0 (Z.of_nat (List.length l) + skip))) l.

Definition len {A} (l : list A) : Z := Z.of_nat (List.length l).

(** [zip(a, b)] stops at the end of the shorter list. *)
Fixpoint zip {A B} (a : list A) (b : list B) : list (A * B) :=
  match a, b with
  | x :: a', y :: b' => (x, y) :: zip a' b'
  | _, _ => []
  end.

(** [d[k] = v] on an insertion-ordered dict: an existing key keeps its place
    and takes the new value, a new key goes last. *)
Fixpoint dict_set (k v : string) (d : list (string * string)) : list (string * string) :=
  match d with
  | [] => [(k, v)]
  | (k', v') :: d' =>
      if String.eqb k k' then (k, v) :: d' else (k', v') :: dict_set k v d'
  end.

(** [dict(pairs)], iterated in insertion order. *)
Definition dict (pairs : list (string * string)) : list (string * string) :=
  fold_left (fun d kv => dict_set (fst kv) (snd kv) d) pairs [].

(** [c.lower()] on one ASCII character. *)
Definition lower_ascii (c : ascii) : ascii :=
  let n := nat_of_ascii c in
  if ((65 <=? n) && (n <=? 90))%nat then ascii_of_nat (n + 32) else c.

(** [s.lower()]. *)
Fixpoint lower (s : string) : string :=
  match s with
  | EmptyString => EmptyString
  | String c s' => String (lower_ascii c) (lower s')
  end.

Definition str_in (s : string) (l : list string) : bool :=
  existsb (String.eqb s) l.

Definition int_in (n : Z) (l : list Z) : bool := existsb (Z.eqb n) l.

(** [enumerate(l)], counting from [start]. *)
Fixpoint enumerate_from {A} (start : Z) (l : list A) : list (Z * A) :=
  match l with
  | [] => []
  | x :: l' => (start, x) :: enumerate_from (start + 1) l'
  end.

Definition enumerate {A} (l : list A) : list (Z * A) := enumerate_from 0 l.

(** ** Collaborators that live outside the embedded files *)

Section Embedding.

Variable E : environment.

(** Modelled from the spec: one task of [util.execute_task], the call
    [t.run(host)] ("execute(hook, host) -> ok | TaskFailed(reason)").  The
    environment decides the outcome, the call is recorded either way. *)
Definition run_task (t : task_instance) (host : string) : M unit :=
  fun w =>
    let ok := task_runs E (trace w) t host in
    (if ok then Return tt else Raise TaskFailedException,
     mkWorld (trace w ++ [EvTask t host ok]) (stdin w)).

(** Modelled from the spec: [util.execute_task(tasks, host)], "run every
    hook against the current host, in registration order; first failure
    aborts". *)
Definition execute_task (tasks : list task_instance) (host : string) : M unit :=
  for_each tasks (fun t => run_task t host).

(** Modelled from the spec: [util.wait_for_stable_cluster], the Cluster
    Stability Monitor seen from its caller: it returns once the cluster is
    stable and raises [WaitTimeoutException] when the time budget runs out;
    "a threshold of zero means no check is performed - transition
    immediately". *)
Definition wait_for_stable_cluster (hosts : list string) (jolokia_port : Z)
    (jolokia_prefix : string) (check_interval check_count unhealthy_time_limit : Z)
    : M unit :=
  fun w =>
    let ok := (check_count =? 0)
              || cluster_settles E (trace w) hosts jolokia_port jolokia_prefix
                   check_interval check_count unhealthy_time_limit in
    (if ok then Return tt else Raise WaitTimeoutException,
     mkWorld (trace w ++ [EvWait hosts jolokia_port jolokia_prefix check_interval
                            check_count unhealthy_time_limit ok])
             (stdin w)).

(** The object bound by [with ssh(...) as connection]. *)
Record connection : Type := mkConnection { conn_host : string }.

(** Modelled from the spec: running a command over a connection ("a scoped
    command-execution capability"). *)
Definition conn_sudo (c : connection) (command : string) : M unit :=
  emit (EvCommand (conn_host c) command).

(** Modelled from the spec: [kafka_utils.util.ssh.ssh] used as a context
    manager, "session factory taking (host, forwardAgent, sudoable,
    maxAttempts, maxTimeout, password?) ... released deterministically on
    scope exit".  When the connection cannot be made the body does not run;
    otherwise the session is closed when the body returns or raises. *)
Definition with_ssh {A} (host : string) (forward_agent sudoable : bool)
    (max_attempts max_timeout : Z) (ssh_password : option string)
    (body : connection -> M A) : M A :=
  fun w =>
    if ssh_connects E (trace w) host then
      match body (mkConnection host) (mkWorld (trace w ++ [EvSshOpen host]) (stdin w)) with
      | (r, w') => (r, mkWorld (trace w' ++ [EvSshClose host]) (stdin w'))
      end
    else (Raise SshError, mkWorld (trace w ++ [EvSshFail host]) (stdin w)).

(** ** rolling_decommission.py *)

(** [decommission_broker]: the body is [pass].  [EvDecommission] only marks
    that the function was called; nothing is sent over [connection], so no
    [EvCommand] comes out of it and nothing is stopped. *)
Definition decommission_broker (host : string) (c : connection)
    (stop_command : string) (verbose : bool) : M unit :=
  emit (EvDecommission host stop_command).

Definition execute_rolling_decommission
    (brokers : list broker) (jolokia_port : Z) (jolokia_prefix : string)
    (check_interval check_count unhealthy_time_limit skip : Z) (verbose : bool)
    (pre_stop_task post_stop_task : list task_instance)
    (start_command stop_command : string) (ssh_password : option string)
    : M unit :=
  let all_hosts := map snd brokers in
  for_each (enumerate (slice_from skip all_hosts)) (fun '(n, host) =>
    with_ssh host true true 3 2 ssh_password (fun connection =>
      execute_task pre_stop_task host ;;
      wait_for_stable_cluster all_hosts jolokia_port jolokia_prefix check_interval
        (if n =? 0 then 1 else check_count) unhealthy_time_limit ;;
      print ("Stopping " ++ host ++ " (" ++ str_of_int (n + 1) ++ "/"
             ++ str_of_int (len all_hosts - skip) ++ ")") ;;
      decommission_broker host connection stop_command verbose ;;
      execute_task post_stop_task host)) ;;
  (* Wait before terminating the script *)
  wait_for_stable_cluster all_hosts jolokia_port jolokia_prefix check_interval
    check_count unhealthy_time_limit.

(** ** main.py *)

(** The signature of [execute_rolling_decommission], which [run] expects of
    [opts.command]. *)
Definition rolling_command : Type :=
  list broker -> Z -> string -> Z -> Z -> Z -> Z -> bool ->
  list task_instance -> list task_instance -> string -> string ->
  option string -> M unit.

(** The namespace returned by [parse_opts]: one attribute for each argument
    the parser declares, and no other. *)
Record options : Type := mkOptions {
  cluster_type : string;
  cluster_name : option string;
  broker_ids : option (list Z);
  discovery_base_path : option string;
  check_interval : Z;
  check_count : Z;
  unhealthy_time_limit : Z;
  jolokia_port : Z;
  jolokia_prefix : string;
  no_confirm : bool;
  skip : Z;
  verbose : bool;
  task : option (list string);
  task_args : option (list string);
  start_command : string;
  stop_command : string;
  ssh_password : option string
}.

(** [opts.command]: [parse_opts] declares no argument of that name, attaches
    no subparser and sets no default ([add_subparser] of
    rolling_decommission.py is called nowhere), so the namespace has no such
    attribute and looking it up raises [AttributeError]. *)
Definition opts_command (opts : options) : M rolling_command :=
  raise AttributeError.

Definition print_brokers (cluster_config : cluster_config) (brokers : list broker)
    : M unit :=
  print ("Will restart the following brokers in " ++ name cluster_config ++ ":") ;;
  for_each brokers (fun '(id, host) =>
    print ("  " ++ str_of_int id ++ ": " ++ host)).

(** [ask_confirmation]: the [while True] loop reads one line per round, so
    it is a recursion on the lines left on standard input; [input()] at the
    end of input raises [EOFError].  The prompt is printed with [end=""];
    [EvPrint] records the text without its terminator. *)
Fixpoint ask_confirmation_loop (lines : list string) (tr : list event)
    : result bool * world :=
  let tr := (tr ++ [EvPrint "Do you want to restart these brokers? "])%list in
  match lines with
  | [] => (Raise EOFError, mkWorld tr [])
  | line :: rest =>
      let choice := lower line in
      if str_in choice ["yes"; "y"] then (Return true, mkWorld tr rest)
      else if str_in choice ["no"; "n"] then (Return false, mkWorld tr rest)
      else ask_confirmation_loop rest
             (tr ++ [EvPrint "Please respond with 'yes' or 'no'"])%list
  end.

Definition ask_confirmation : M bool :=
  fun w => ask_confirmation_loop (stdin w) (trace w).

(** Returns [true] if the options are NOT valid. *)
Definition validate_opts (opts : options) (brokers_num : Z) : M bool :=
  if (skip opts <? 0) || (skip opts >=? brokers_num) then
    print "Error: --skip must be >= 0 and < #brokers" ;; ret true
  else if check_count opts <? 0 then
    print "Error: --check-count must be >= 0" ;; ret true
  else if unhealthy_time_limit opts <? 0 then
    print "Error: --unhealthy-time-limit must be >= 0" ;; ret true
  else
    (if check_count opts =? 0 then print "Warning: no check will be performed"
     else ret tt) ;;
    if check_interval opts <? 0 then
      print "Error: --check-interval must be >= 0" ;; ret true
    else ret false.

Definition validate_broker_ids_subset (broker_ids subset_ids : list Z) : M bool :=
  let all_ids := broker_ids in
  for_fold subset_ids true (fun subset_id valid =>
    let valid := valid && int_in subset_id all_ids in
    (if negb (int_in subset_id all_ids) then
       print ("Error: user specified broker id " ++ str_of_int subset_id
              ++ " does not exist in cluster.")
     else ret tt) ;;
    ret valid).

Definition get_task_class (tasks task_args : list string)
    : M (list task_instance * list task_instance) :=
  let task_to_task_args := dict (zip tasks task_args) in
  let tasks_classes := [PreStopTask; PostStopTask] in
  for_fold task_to_task_args ([], []) (fun '(func, task_args) lists =>
    for_fold tasks_classes lists (fun task_class '(pre_stop_tasks, post_stop_tasks) =>
      match dynamic_import E func task_class with
      | Some imported_class =>
          if task_class_is task_class PreStopTask then
            ret (pre_stop_tasks ++ [mkTask imported_class task_args], post_stop_tasks)%list
          else if task_class_is task_class PostStopTask then
            ret (pre_stop_tasks, post_stop_tasks ++ [mkTask imported_class task_args])%list
          else
            print ("ERROR: Class is not a type of Pre/Post StopTask:" ++ func) ;;
            sys_exit 1
      | None => ret (pre_stop_tasks, post_stop_tasks)
      end)).

(** Modelled from the spec: [util.filter_broker_list(brokers, filter_by)],
    "filterBrokerList(list, ids) -> subsequence": the brokers whose id is
    among the requested ones, in their original order. *)
Definition filter_broker_list (brokers : list broker) (filter_by : list Z)
    : list broker :=
  filter (fun b => int_in (fst b) filter_by) brokers.

(** Truth value of an optional list ([None] and [[]] are false). *)
Definition truthy {A} (o : option (list A)) : bool :=
  match o with
  | Some (_ :: _) => true
  | _ => false
  end.

Definition is_exn (c e : exn) : bool :=
  match c, e with
  | TaskFailedException, TaskFailedException => true
  | WaitTimeoutException, WaitTimeoutException => true
  | _, _ => false
  end.

(** The [except] clauses of the [try] in [run]. *)
Definition except_clauses : list ((exn -> bool) * M unit) :=
  [ (is_exn TaskFailedException,
     print "ERROR: pre/post tasks failed, exiting" ;; sys_exit 1);
    (is_exn WaitTimeoutException,
     print "ERROR: cluster is still unhealthy, exiting" ;; sys_exit 1) ].

(** [run]; the [logging.basicConfig] calls leave no trace and are left out. *)
Definition run (opts : options) : M unit :=
  let cluster_config :=
    get_cluster_config E (cluster_type opts) (cluster_name opts)
      (discovery_base_path opts) in
  let brokers := get_broker_list E cluster_config in
  brokers <-
    (match broker_ids opts with
     | Some (id0 :: ids) =>
         valid <- validate_broker_ids_subset (map fst brokers) (id0 :: ids) ;;
         (if negb valid then sys_exit 1 else ret tt) ;;
         ret (filter_broker_list brokers (id0 :: ids))
     | _ => ret brokers
     end) ;;
  invalid <- validate_opts opts (len brokers) ;;
  (if invalid then sys_exit 1 else ret tt) ;;
  tasks <-
    (match task opts with
     | Some (t0 :: ts) =>
         match task_args opts with
         | Some args => get_task_class (t0 :: ts) args
         | None => raise TypeError
         end
     | _ => ret ([], [])
     end) ;;
  let '(pre_stop_tasks, post_stop_tasks) := tasks in
  print_brokers cluster_config (slice_from (skip opts) brokers) ;;
  confirmed <- (if no_confirm opts then ret true else ask_confirmation) ;;
  if confirmed : bool then
    print "Execute rolling command" ;;
    try_except
      (command <- opts_command opts ;;
       command brokers (jolokia_port opts) (jolokia_prefix opts)
         (check_interval opts) (check_count opts) (unhealthy_time_limit opts)
         (skip opts) (verbose opts) pre_stop_tasks post_stop_tasks
         (start_command opts) (stop_command opts) (ssh_password opts))
      except_clauses
  else ret tt.

End Embedding.

(** The status the process ends with: [0] when [run] returns, the code of
    [sys.exit], [1] for any other exception that reaches the top. *)
Definition exit_code (r : result unit) : Z :=
  match r with
  | Return _ => 0
  | Raise (SystemExit code) => code
  | Raise _ => 1
  end.

(** ** Reading a trace *)

(** The events a run added to the trace it started from. *)
Definition new_events (w w' : world) : list event :=
  skipn (List.length (trace w)) (trace w').

Definition is_print (e : event) : bool :=
  match e with EvPrint _ => true | _ => false end.

Definition is_ssh (e : event) : bool :=
  match e with
  | EvSshOpen _ | EvSshFail _ | EvSshClose _ => true
  | _ => false
  end.

(** Hosts for which [decommission_broker] was called, in order (the calls,
    not commands sent: see [commands_issued]). *)
Fixpoint stop_operations (l : list event) : list string :=
  match l with
  | [] => []
  | EvDecommission host _ :: l' => host :: stop_operations l'
  | _ :: l' => stop_operations l'
  end.

(** Hosts to which an SSH session was opened, in order. *)
Fixpoint sessions_opened (l : list event) : list string :=
  match l with
  | [] => []
  | EvSshOpen host :: l' => host :: sessions_opened l'
  | _ :: l' => sessions_opened l'
  end.

(** Commands sent to a host over an SSH connection, in order. *)
Fixpoint commands_issued (l : list event) : list (string * string) :=
  match l with
  | [] => []
  | EvCommand host c :: l' => (host, c) :: commands_issued l'
  | _ :: l' => commands_issued l'
  end.

(** The required-consecutive count of every stability wait, in order. *)
Fixpoint wait_counts (l : list event) : list Z :=
  match l with
  | [] => []
  | EvWait _ _ _ _ count _ _ :: l' => count :: wait_counts l'
  | _ :: l' => wait_counts l'
  end.

Fixpoint close_session (host : string) (open : list string) : list string :=
  match open with
  | [] => []
  | h :: open' => if String.eqb host h then open' else h :: close_session host open'
  end.

(** The SSH sessions that are open after the events [l], given the ones
    that were [open] before. *)
Fixpoint sessions_after (open : list string) (l : list event) : list string :=
  match l with
  | [] => open
  | EvSshOpen h :: l' => sessions_after (h :: open) l'
  | EvSshClose h :: l' => sessions_after (close_session h open) l'
  | _ :: l' => sessions_after open l'
  end.

(** How a call that went well looks when it fails instead, and what it
    raises then.  Events that cannot fail have no such counterpart. *)
Definition failure (e : event) : option (event * exn) :=
  match e with
  | EvTask t h true => Some (EvTask t h false, TaskFailedException)
  | EvWait hs p x i c l true => Some (EvWait hs p x i c l false, WaitTimeoutException)
  | EvSshOpen h => Some (EvSshFail h, SshError)
  | _ => None
  end.

(** The [with] blocks left on the way out: every open session is closed. *)
Definition closing (done : list event) : list event :=
  map EvSshClose (sessions_after [] done).

(** [unfolds plan r evs]: the events [evs] of a run that ended with [r]
    follow [plan], the events of a run in which nothing fails.  A run that
    returns produced exactly the plan.  A run that raises [e] produced the
    plan up to some position [k], then the failed form of the [k]-th call
    (which raises [e]), then only the closing of the open session. *)
Definition unfolds {A} (plan : list event) (r : result A) (evs : list event) : Prop :=
  match r with
  | Return _ => evs = plan
  | Raise e =>
      exists k good bad,
        nth_error plan k = Some good /\
        failure good = Some (bad, e) /\
        evs = (firstn k plan ++ bad :: closing (firstn k plan))%list
  end.

(** ** What a decommission run does when nothing fails *)

Section Plan.

Variables (brokers : list broker) (jolokia_port : Z) (jolokia_prefix : string)
          (check_interval check_count unhealthy_time_limit skip : Z)
          (pre_stop_task post_stop_task : list task_instance)
          (stop_command : string).

(** The phases of broker number [n] (counted from [0] among the processed
    ones) as the code orders them: pre-stop hooks, stability wait, stop,
    post-stop hooks. *)
Definition hooks_plan (tasks : list task_instance) (host : string) : list event :=
  map (fun t => EvTask t host true) tasks.

Definition body_plan (n : Z) (host : string) : list event :=
  (hooks_plan pre_stop_task host
   ++ [EvWait (map snd brokers) jolokia_port jolokia_prefix check_interval
         (if n =? 0 then 1 else check_count) unhealthy_time_limit true]
   ++ [EvPrint ("Stopping " ++ host ++ " (" ++ str_of_int (n + 1) ++ "/"
                ++ str_of_int (len (map snd brokers) - skip) ++ ")")]
   ++ [EvDecommission host stop_command]
   ++ hooks_plan post_stop_task host)%list.

Definition cycle_plan (n : Z) (host : string) : list event :=
  (EvSshOpen host :: body_plan n host ++ [EvSshClose host])%list.

Definition cycles_plan (numbered : list (Z * string)) : list event :=
  flat_map (fun '(n, host) => cycle_plan n host) numbered.

Definition final_wait (ok : bool) : event :=
  EvWait (map snd brokers) jolokia_port jolokia_prefix check_interval
    check_count unhealthy_time_limit ok.

Definition decommission_plan : list event :=
  (cycles_plan (enumerate (slice_from skip (map snd brokers)))
   ++ [final_wait true])%list.

(** The phases of a run in the order the specification words them
    ("waits for stability, runs pre-hooks, performs the stop operation, runs
    post-hooks, and advances"), followed by the closing wait. *)
Definition spec_cycle_phases (n : Z) (host : string) : list event :=
  ([EvWait (map snd brokers) jolokia_port jolokia_prefix check_interval
      (if n =? 0 then 1 else check_count) unhealthy_time_limit true]
   ++ hooks_plan pre_stop_task host
   ++ [EvDecommission host stop_command]
   ++ hooks_plan post_stop_task host)%list.

Definition spec_phases : list event :=
  (flat_map (fun '(n, host) => spec_cycle_phases n host)
     (enumerate (slice_from skip (map snd brokers)))
   ++ [final_wait true])%list.

End Plan.

(** The phase events of a trace: hooks, waits and stop operations, without
    the session bookkeeping and the printed lines. *)
Definition phases (l : list event) : list event :=
  filter (fun e => negb (is_ssh e) && negb (is_print e)) l.

(** ** Sessions and the events they span *)

Definition is_nil {A} (l : list A) : bool :=
  match l with [] => true | _ => false end.

Definition only_session (host : string) (open : list string) : bool :=
  match open with
  | [h] => String.eqb host h
  | _ => false
  end.

(** What the code keeps about the sessions that are [open] when the event
    [e] happens ([last]: [e] is the last event of the run).  A connection is
    attempted only when no session is open; hooks, stop operations, commands
    and the closing of a session happen while the session to their host, and
    no other, is open; a stability wait that is not the last event happens
    inside a session, the last one outside. *)
Definition session_rule (open : list string) (e : event) (last : bool) : bool :=
  match e with
  | EvSshOpen _ | EvSshFail _ => is_nil open
  | EvSshClose h | EvTask _ h _ | EvDecommission h _ | EvCommand h _ =>
      only_session h open
  | EvWait _ _ _ _ _ _ _ =>
      match open with
      | [] => last
      | [_] => negb last
      | _ => false
      end
  | EvPrint _ => true
  end.

(** [session_rule] checked at every event of [l]; [more] tells that other
    events follow [l]. *)
Fixpoint scoped (open : list string) (l : list event) (more : bool) : bool :=
  match l with
  | [] => true
  | e :: l' =>
      session_rule open e (is_nil l' && negb more)
      && scoped (sessions_after open [e]) l' more
  end.

(** The session rule in the words of the specification: "the remote session
    for a broker is scoped strictly to step 3 of that broker's cycle", so no
    session is open during a stability wait or a hook, and the stop
    operation runs inside the session to its host. *)
Definition spec_session_rule (open : list string) (e : event) : bool :=
  match e with
  | EvTask _ _ _ | EvWait _ _ _ _ _ _ _ => is_nil open
  | EvDecommission h _ => only_session h open
  | _ => true
  end.

(** ** What the validation decides *)

(** The brokers [run] goes on with after the first validation: the
    cluster's list, filtered when a non-empty [--broker-ids] was given. *)
Definition selected_brokers (E : environment) (opts : options) : list broker :=
  let brokers := get_broker_list E (get_cluster_config E (cluster_type opts)
                   (cluster_name opts) (discovery_base_path opts)) in
  match broker_ids opts with
  | Some (id0 :: ids) => filter_broker_list brokers (id0 :: ids)
  | _ => brokers
  end.

(** The value [validate_opts] returns. *)
Definition invalid_opts (opts : options) (brokers_num : Z) : bool :=
  (skip opts <? 0) || (skip opts >=? brokers_num) || (check_count opts <? 0)
  || (unhealthy_time_limit opts <? 0) || (check_interval opts <? 0).


(** Where the task instances that [get_task_class] returns come from. *)
Definition imported_from (E : environment) (funcs : list string)
    (t : task_instance) : Prop :=
  exists func task_class,
    In func funcs /\ dynamic_import E func task_class = Some (task_cls t).


(** ** Code that follows a plan *)

(** [follows plan m]: from any world, [m] leaves the input alone and adds
    events that unfold [plan]. *)
Definition follows {A} (plan : list event) (m : M A) : Prop :=
  forall w r w', m w = (r, w') ->
    exists evs, w' = mkWorld (trace w ++ evs) (stdin w) /\ unfolds plan r evs.

(** ** Concrete worlds used in the examples *)

(** An environment in which the cluster has brokers [A] to [E], no plugin
    resolves, every task succeeds, the cluster always settles and every
    host accepts connections. *)
Definition calm : environment :=
  mkEnv (fun _ _ _ => mkClusterConfig "test-cluster")
        (fun _ => [(1, "A"); (2, "B"); (3, "C"); (4, "D"); (5, "E")])
        (fun _ _ => None)
        (fun _ _ _ => true)
        (fun _ _ _ _ _ _ _ => true)
        (fun _ _ => true).

Definition fresh : world := mkWorld [] [].

Definition task_p : task_instance := mkTask "P" "x".
Definition task_q : task_instance := mkTask "Q" "y".

(** Options for the calm cluster: every plugin option unset, no
    confirmation asked, the other options at their defaults. *)
Definition calm_opts (skip check_count : Z) (broker_ids : option (list Z))
    : options :=
  mkOptions "standard" None broker_ids None 10 check_count 600 8778 "jolokia/"
    true skip false None None "service kafka start" "service kafka stop" None.

(** An environment whose cluster has no broker at all. *)
Definition deserted : environment :=
  mkEnv (get_cluster_config calm) (fun _ => []) (dynamic_import calm)
        (task_runs calm) (cluster_settles calm) (ssh_connects calm).



(** The calm environment with two plugins: [pre.mod] holds a pre-stop task
    class and [post.mod] a post-stop task class. *)
Definition with_plugins : environment :=
  mkEnv (get_cluster_config calm) (get_broker_list calm)
        (fun func task_class =>
           match task_class with
           | PreStopTask => if String.eqb func "pre.mod" then Some "PreCheck" else None
           | PostStopTask => if String.eqb func "post.mod" then Some "PostCheck" else None
           end)
        (task_runs calm) (cluster_settles calm) (ssh_connects calm).

(** ** Failed hooks and what is reported *)



(** [ends_in P m]: whatever the world, [m] extends the trace by events
    [evs] and ends with a result [r] such that [P r evs]. *)
Definition ends_in {A} (P : result A -> list event -> Prop) (m : M A) : Prop :=
  forall w r w', m w = (r, w') ->
    exists evs, trace w' = (trace w ++ evs)%list /\ P r evs.

(** Code that only prints. *)
Definition quiet {A} (m : M A) : Prop :=
  ends_in (fun _ evs => forallb is_print evs = true) m.


(** ** More of main.py, read off the code *)

(** The line [validate_broker_ids_subset] prints for an id that is not in
    the cluster. *)
Definition missing_id_line (subset_id : Z) : event :=
  EvPrint ("Error: user specified broker id " ++ str_of_int subset_id
           ++ " does not exist in cluster.").

(** A line that [ask_confirmation] takes as an answer, and the answer. *)
Definition says_yes (line : string) : bool := str_in (lower line) ["yes"; "y"].
Definition says_no (line : string) : bool := str_in (lower line) ["no"; "n"].

Definition confirmation_prompt : event :=
  EvPrint "Do you want to restart these brokers? ".

Definition confirmation_retry : event :=
  EvPrint "Please respond with 'yes' or 'no'".

(** What [ask_confirmation] prints while it goes through lines that are
    not answers: the prompt and the reminder, once for each. *)
Definition retries (junk : list string) : list event :=
  flat_map (fun _ => [confirmation_prompt; confirmation_retry]) junk.

(** The instances one entry [(func, task_args)] of the task dict gives:
    one for the class [dynamic_import] finds for each base class, if any. *)
Definition pre_stop_of (E : environment) (entry : string * string)
    : list task_instance :=
  match dynamic_import E (fst entry) PreStopTask with
  | Some imported_class => [mkTask imported_class (snd entry)]
  | None => []
  end.

Definition post_stop_of (E : environment) (entry : string * string)
    : list task_instance :=
  match dynamic_import E (fst entry) PostStopTask with
  | Some imported_class => [mkTask imported_class (snd entry)]
  | None => []
  end.

(** ** More of rolling_decommission.py, read off the code *)

(** An environment in which no call to the outside fails. *)
Definition never_fails (E : environment) : Prop :=
  (forall tr t host, task_runs E tr t host = true) /\
  (forall tr hosts port prefix interval count limit,
     cluster_settles E tr hosts port prefix interval count limit = true) /\
  (forall tr host, ssh_connects E tr host = true).

Definition is_command (e : event) : bool :=
  match e with EvCommand _ _ => true | _ => false end.

(** The calls that ended badly. *)
Definition is_failure (e : event) : bool :=
  match e with
  | EvTask _ _ false | EvWait _ _ _ _ _ _ false | EvSshFail _ => true
  | _ => false
  end.

(** [runs_to plan m]: from any world [m] returns, having added exactly the
    events [plan] and read nothing. *)
Definition runs_to {A} (plan : list event) (m : M A) : Prop :=
  forall w, exists a, m w = (Return a, mkWorld (trace w ++ plan)%list (stdin w)).

(** ** The stages of [run] *)

(** The requested ids pass [validate_broker_ids_subset] (or none were
    requested). *)
Definition requested_ids_ok (E : environment) (opts : options) : bool :=
  let brokers := get_broker_list E (get_cluster_config E (cluster_type opts)
                   (cluster_name opts) (discovery_base_path opts)) in
  match broker_ids opts with
  | Some (id0 :: ids) => forallb (fun i => int_in i (map fst brokers)) (id0 :: ids)
  | _ => true
  end.

(** [run] gets past both validations. *)
Definition accepted (E : environment) (opts : options) : bool :=
  requested_ids_ok E opts
  && negb (invalid_opts opts (len (selected_brokers E opts))).

(** What [validate_opts] prints for options it accepts. *)
Definition accepted_output (opts : options) : list event :=
  if check_count opts =? 0
  then [EvPrint "Warning: no check will be performed"] else [].

(** What [print_brokers] prints. *)
Definition broker_lines (c : cluster_config) (brokers : list broker) : list event :=
  EvPrint ("Will restart the following brokers in " ++ name c ++ ":")
  :: map (fun b => EvPrint ("  " ++ str_of_int (fst b) ++ ": " ++ snd b)) brokers.

(** Everything [run] has printed when it comes to the confirmation. *)
Definition announced (E : environment) (opts : options) : list event :=
  (accepted_output opts
   ++ broker_lines (get_cluster_config E (cluster_type opts) (cluster_name opts)
                      (discovery_base_path opts))
        (slice_from (skip opts) (selected_brokers E opts)))%list.

(** [--task-args] was given whenever [--task] was: [get_task_class] can pair
    them. *)
Definition tasks_loadable (opts : options) : bool :=
  match task opts, task_args opts with
  | Some (_ :: _), None => false
  | _, _ => true
  end.

(** The hooks [run] hands to the command. *)
Definition loaded_tasks (E : environment) (opts : options)
    : list task_instance * list task_instance :=
  match task opts, task_args opts with
  | Some (t0 :: ts), Some args =>
      let entries := dict (zip (t0 :: ts) args) in
      (flat_map (pre_stop_of E) entries, flat_map (post_stop_of E) entries)
  | _, _ => ([], [])
  end.

(** The calm environment, except that the cluster only passes the relaxed
    check: a wait for more than one healthy check times out. *)
Definition never_steady : environment :=
  mkEnv (get_cluster_config calm) (get_broker_list calm) (dynamic_import calm)
        (task_runs calm)
        (fun _ _ _ _ _ count _ => count =? 1)
        (ssh_connects calm).

(** The calm environment, except that host [D] refuses connections. *)
Definition d_refuses : environment :=
  mkEnv (get_cluster_config calm) (get_broker_list calm) (dynamic_import calm)
        (task_runs calm) (cluster_settles calm)
        (fun _ host => negb (String.eqb host "D")).

(** * Proofs *)

Local Open Scope list_scope.

(** ** Sessions along a trace *)

Lemma sessions_after_app (l1 l2 : list event) (open : list string) :
  sessions_after open (l1 ++ l2) = sessions_after (sessions_after open l1) l2.
Proof.
  revert open; induction l1 as [|e l1 IH]; intros open; [reflexivity|].
  destruct e; simpl; apply IH.
Qed.

Lemma sessions_after_no_ssh (l : list event) (open : list string) :
  forallb (fun e => negb (is_ssh e)) l = true -> sessions_after open l = open.
Proof.
  induction l as [|e l IH]; intros H; [reflexivity|].
  simpl in H. apply andb_prop in H as [He Hl].
  destruct e; simpl in *; try discriminate; auto.
Qed.

Lemma no_ssh_firstn (k : nat) (l : list event) :
  forallb (fun e => negb (is_ssh e)) l = true ->
  forallb (fun e => negb (is_ssh e)) (firstn k l) = true.
Proof.
  revert k; induction l as [|e l IH]; intros [|k] H; simpl in *; auto.
  apply andb_prop in H as [He Hl]. rewrite He. simpl. auto.
Qed.

Lemma no_ssh_app (l1 l2 : list event) :
  forallb (fun e => negb (is_ssh e)) l1 = true ->
  forallb (fun e => negb (is_ssh e)) l2 = true ->
  forallb (fun e => negb (is_ssh e)) (l1 ++ l2) = true.
Proof. intros H1 H2. rewrite forallb_app, H1, H2. reflexivity. Qed.

(** ** Code that follows a plan *)

Lemma world_eta (w : world) : mkWorld (trace w) (stdin w) = w.
Proof. destruct w; reflexivity. Qed.

Lemma follows_ret {A} (a : A) : follows [] (ret a).
Proof.
  intros w r w' H. inversion H; subst. exists []. split.
  - rewrite app_nil_r. symmetry. apply world_eta.
  - reflexivity.
Qed.

Lemma follows_emit (e : event) : follows [e] (emit e).
Proof.
  intros w r w' H. inversion H; subst. exists [e]. split; reflexivity.
Qed.

Lemma follows_bind {A B} (p q : list event) (m : M A) (f : A -> M B) :
  follows p m -> (forall a, follows q (f a)) -> sessions_after [] p = [] ->
  follows (p ++ q) (bind m f).
Proof.
  intros Hm Hf Hp w r w' H. unfold bind in H.
  destruct (m w) as [[a|e] w1] eqn:Em.
  - destruct (Hm _ _ _ Em) as (evs & -> & Hu). simpl in Hu. subst evs.
    destruct (Hf a _ _ _ H) as (evs2 & -> & Hu2). simpl.
    exists (p ++ evs2). split; [now rewrite app_assoc|].
    destruct r as [b|e]; simpl in *.
    + now subst.
    + destruct Hu2 as (k & good & bad & Hk & Hfail & ->).
      exists (List.length p + k)%nat, good, bad. repeat split; auto.
      * rewrite nth_error_app2 by lia.
        replace (List.length p + k - List.length p)%nat with k by lia. exact Hk.
      * rewrite firstn_app_2. unfold closing.
        rewrite sessions_after_app, Hp. now rewrite <- app_assoc.
  - inversion H; subst; clear H.
    destruct (Hm _ _ _ Em) as (evs & -> & Hu). exists evs. split; [reflexivity|].
    simpl in *. destruct Hu as (k & good & bad & Hk & Hfail & ->).
    assert (Hlt : (k < List.length p)%nat)
      by (apply nth_error_Some; rewrite Hk; discriminate).
    exists k, good, bad. repeat split; auto.
    + now rewrite nth_error_app1.
    + rewrite firstn_app. replace (k - List.length p)%nat with 0%nat by lia.
      simpl. now rewrite app_nil_r.
Qed.

Section Sequencer.

Variable E : environment.

Lemma follows_run_task (t : task_instance) (host : string) :
  follows [EvTask t host true] (run_task E t host).
Proof.
  intros w r w' H. unfold run_task in H.
  destruct (task_runs E (trace w) t host); inversion H; subst; clear H.
  - exists [EvTask t host true]. split; reflexivity.
  - exists [EvTask t host false]. split; [reflexivity|].
    exists 0%nat, (EvTask t host true), (EvTask t host false).
    repeat split.
Qed.

Lemma follows_wait (hosts : list string) (port : Z) (prefix : string)
    (interval count limit : Z) :
  follows [EvWait hosts port prefix interval count limit true]
    (wait_for_stable_cluster E hosts port prefix interval count limit).
Proof.
  intros w r w' H. unfold wait_for_stable_cluster in H.
  destruct ((count =? 0) || cluster_settles E (trace w) hosts port prefix interval count limit);
    inversion H; subst; clear H.
  - eexists. split; reflexivity.
  - eexists. split; [reflexivity|].
    exists 0%nat, (EvWait hosts port prefix interval count limit true),
      (EvWait hosts port prefix interval count limit false).
    repeat split.
Qed.

Lemma follows_for_each {A} (p : A -> list event) (body : A -> M unit) (xs : list A) :
  (forall x, follows (p x) (body x)) ->
  (forall x, sessions_after [] (p x) = []) ->
  follows (flat_map p xs) (for_each xs body).
Proof.
  intros Hb Hs. induction xs as [|x xs IH]; simpl.
  - apply follows_ret.
  - apply follows_bind; auto.
Qed.

Lemma hooks_no_ssh (tasks : list task_instance) (host : string) :
  forallb (fun e => negb (is_ssh e)) (hooks_plan tasks host) = true.
Proof. induction tasks; simpl; auto. Qed.

Lemma follows_execute_task (tasks : list task_instance) (host : string) :
  follows (hooks_plan tasks host) (execute_task E tasks host).
Proof.
  unfold execute_task, hooks_plan.
  replace (map (fun t => EvTask t host true) tasks)
    with (flat_map (fun t => [EvTask t host true]) tasks)
    by (induction tasks; simpl; congruence).
  apply follows_for_each; [intros; apply follows_run_task | reflexivity].
Qed.

Lemma follows_with_ssh {A} (p : list event) (host : string) (fa su : bool)
    (attempts timeout : Z) (password : option string) (body : connection -> M A) :
  (forall c, follows p (body c)) ->
  forallb (fun e => negb (is_ssh e)) p = true ->
  follows (EvSshOpen host :: p ++ [EvSshClose host])
    (with_ssh E host fa su attempts timeout password body).
Proof.
  intros Hb Hp w r w' H. unfold with_ssh in H.
  destruct (ssh_connects E (trace w) host).
  - destruct (body _ _) as [r1 w1] eqn:Eb. inversion H; subst; clear H.
    destruct (Hb _ _ _ _ Eb) as (evs & -> & Hu). simpl.
    exists (EvSshOpen host :: evs ++ [EvSshClose host]). split.
    { f_equal. rewrite <- !app_assoc. reflexivity. }
    destruct r as [a|e]; simpl in *.
    + now subst.
    + destruct Hu as (k & good & bad & Hk & Hfail & ->).
      assert (Hlt : (k < List.length p)%nat)
        by (apply nth_error_Some; rewrite Hk; discriminate).
      exists (S k), good, bad. repeat split; auto.
      * simpl. now rewrite nth_error_app1.
      * simpl. rewrite firstn_app.
        replace (k - List.length p)%nat with 0%nat by lia.
        simpl. rewrite app_nil_r. unfold closing. simpl.
        rewrite !sessions_after_no_ssh by now apply no_ssh_firstn.
        simpl. now rewrite <- app_assoc.
  - inversion H; subst; clear H. exists [EvSshFail host]. split; [reflexivity|].
    exists 0%nat, (EvSshOpen host), (EvSshFail host). repeat split.
Qed.

Section Run.

Variables (brokers : list broker) (jolokia_port : Z) (jolokia_prefix : string)
          (check_interval check_count unhealthy_time_limit skip : Z)
          (verbose : bool)
          (pre_stop_task post_stop_task : list task_instance)
          (start_command stop_command : string) (ssh_password : option string).

Let plan_of_body := body_plan brokers jolokia_port jolokia_prefix check_interval
                      check_count unhealthy_time_limit skip pre_stop_task
                      post_stop_task stop_command.
Let plan_of_cycle := cycle_plan brokers jolokia_port jolokia_prefix check_interval
                       check_count unhealthy_time_limit skip pre_stop_task
                       post_stop_task stop_command.
Let plan := decommission_plan brokers jolokia_port jolokia_prefix check_interval
              check_count unhealthy_time_limit skip pre_stop_task
              post_stop_task stop_command.

Lemma body_no_ssh (n : Z) (host : string) :
  forallb (fun e => negb (is_ssh e)) (plan_of_body n host) = true.
Proof.
  unfold plan_of_body, body_plan.
  repeat (apply no_ssh_app; try reflexivity); apply hooks_no_ssh.
Qed.

Lemma cycle_closes_its_session (n : Z) (host : string) (open : list string) :
  sessions_after open (plan_of_cycle n host) = open.
Proof.
  unfold plan_of_cycle, cycle_plan. cbn [sessions_after].
  rewrite sessions_after_app.
  rewrite (sessions_after_no_ssh _ _ (body_no_ssh n host)).
  simpl. now rewrite String.eqb_refl.
Qed.

Lemma cycles_close_their_sessions (numbered : list (Z * string)) (open : list string) :
  sessions_after open
    (cycles_plan brokers jolokia_port jolokia_prefix check_interval check_count
       unhealthy_time_limit skip pre_stop_task post_stop_task stop_command
       numbered) = open.
Proof.
  induction numbered as [|[n host] l IH]; [reflexivity|].
  unfold cycles_plan in *. cbn [flat_map]. rewrite sessions_after_app.
  fold (plan_of_cycle n host). now rewrite cycle_closes_its_session.
Qed.

(** Every run of [execute_rolling_decommission] unfolds its plan. *)
Lemma decommission_follows_plan :
  follows plan
    (execute_rolling_decommission E brokers jolokia_port jolokia_prefix
       check_interval check_count unhealthy_time_limit skip verbose
       pre_stop_task post_stop_task start_command stop_command ssh_password).
Proof.
  unfold plan, decommission_plan, execute_rolling_decommission.
  apply follows_bind.
  - unfold cycles_plan. apply follows_for_each.
    + intros [n host]. unfold cycle_plan. apply follows_with_ssh.
      * intros c. unfold body_plan.
        apply follows_bind; [apply follows_execute_task| |
          apply sessions_after_no_ssh, hooks_no_ssh].
        intros _. apply follows_bind; [apply follows_wait| |reflexivity].
        intros _. apply follows_bind; [apply follows_emit| |reflexivity].
        intros _. apply follows_bind; [apply follows_emit| |reflexivity].
        intros _. apply follows_execute_task.
      * apply body_no_ssh.
    + intros [n host]. apply (cycle_closes_its_session n host []).
  - intros _. apply follows_wait.
  - apply cycles_close_their_sessions.
Qed.

End Run.

End Sequencer.

(** ** The order of the phases (C1) *)

(** C1, as the specification words it, fails: with one broker [A], one
    pre-stop task and one post-stop task, the run succeeds and its phases
    are not "wait, pre-stop hooks, stop, post-stop hooks": the pre-stop hook
    runs before the stability wait. *)
Lemma C1_wait_is_not_first :
  let rw := execute_rolling_decommission calm [(1, "A")] 8778 "jolokia/" 10 12 600 0
              false [task_p] [task_q] "start" "stop" None fresh in
  fst rw = Return tt /\
  phases (trace (snd rw))
    = [EvTask task_p "A" true;
       EvWait ["A"] 8778 "jolokia/" 10 1 600 true;
       EvDecommission "A" "stop";
       EvTask task_q "A" true;
       EvWait ["A"] 8778 "jolokia/" 10 12 600 true] /\
  phases (trace (snd rw))
    <> spec_phases [(1, "A")] 8778 "jolokia/" 10 12 600 0 [task_p] [task_q] "stop".
Proof.
  vm_compute. repeat split. discriminate.
Qed.

(** C1 (amended): for every broker processed by the rolling decommission
    sequencer the phases occur in the order: every pre-stop hook against the
    host first, then the wait for cluster stability, then the stop
    operation, then every post-stop hook, before the next broker is started.
    Every run, whatever its outcome, unfolds [decommission_plan], whose
    cycles are laid out in exactly this order; a run that fails stops at the
    failed call. *)
Theorem C1_phases_in_code_order (E : environment)
    (brokers : list broker) (jolokia_port : Z) (jolokia_prefix : string)
    (check_interval check_count unhealthy_time_limit skip : Z) (verbose : bool)
    (pre_stop_task post_stop_task : list task_instance)
    (start_command stop_command : string) (ssh_password : option string)
    (w : world) :
  let rw := execute_rolling_decommission E brokers jolokia_port jolokia_prefix
              check_interval check_count unhealthy_time_limit skip verbose
              pre_stop_task post_stop_task start_command stop_command
              ssh_password w in
  exists evs,
    snd rw = mkWorld (trace w ++ evs) (stdin w) /\
    unfolds
      (flat_map
         (fun '(n, host) =>
            [EvSshOpen host]
            ++ map (fun t => EvTask t host true) pre_stop_task
            ++ [EvWait (map snd brokers) jolokia_port jolokia_prefix check_interval
                  (if n =? 0 then 1 else check_count) unhealthy_time_limit true;
                EvPrint ("Stopping " ++ host ++ " (" ++ str_of_int (n + 1) ++ "/"
                         ++ str_of_int (len (map snd brokers) - skip) ++ ")")%string;
                EvDecommission host stop_command]
            ++ map (fun t => EvTask t host true) post_stop_task
            ++ [EvSshClose host])
         (enumerate (slice_from skip (map snd brokers)))
       ++ [EvWait (map snd brokers) jolokia_port jolokia_prefix check_interval
             check_count unhealthy_time_limit true])
      (fst rw) evs.
Proof.
  intros rw. subst rw.
  destruct (execute_rolling_decommission _ _ _ _ _ _ _ _ _ _ _ _ _ _ w) as [r w'] eqn:Ex.
  apply decommission_follows_plan in Ex as (evs & -> & Hu).
  exists evs. split; [reflexivity|]. simpl.
  match goal with
  | |- unfolds ?q _ _ =>
      replace q with (decommission_plan brokers jolokia_port jolokia_prefix
                        check_interval check_count unhealthy_time_limit skip
                        pre_stop_task post_stop_task stop_command);
      [exact Hu|]
  end.
  clear. unfold decommission_plan, cycles_plan, final_wait. f_equal.
  apply flat_map_ext. intros [n host].
  unfold cycle_plan, body_plan, hooks_plan. cbn [app].
  rewrite <- !app_assoc. reflexivity.
Qed.

(** ** Stop operations and stop commands (C2, C4) *)

(** C2: run on the brokers [A; B] with a check count of [0], the sequencer
    calls [decommission_broker] once per broker, [A] then [B], and the run
    succeeds, but no stop command (and no other command) is sent to either
    host: the body of [decommission_broker] is [pass]. *)
Theorem C2_no_stop_command_is_issued :
  let rw := execute_rolling_decommission calm [(1, "A"); (2, "B")] 8778 "jolokia/"
              10 0 600 0 false [] [] "service kafka start" "service kafka stop"
              None fresh in
  fst rw = Return tt /\
  stop_operations (trace (snd rw)) = ["A"; "B"] /\
  commands_issued (trace (snd rw)) = [].
Proof. vm_compute. repeat split. Qed.

Lemma stop_operations_app (l1 l2 : list event) :
  stop_operations (l1 ++ l2) = stop_operations l1 ++ stop_operations l2.
Proof.
  induction l1 as [|e l1 IH]; [reflexivity|].
  destruct e; simpl; rewrite IH; reflexivity.
Qed.

Lemma stop_operations_hooks (tasks : list task_instance) (host : string) :
  stop_operations (hooks_plan tasks host) = [].
Proof. induction tasks; simpl; auto. Qed.

Lemma wait_counts_app (l1 l2 : list event) :
  wait_counts (l1 ++ l2) = wait_counts l1 ++ wait_counts l2.
Proof.
  induction l1 as [|e l1 IH]; [reflexivity|].
  destruct e; simpl; rewrite IH; reflexivity.
Qed.

Lemma wait_counts_hooks (tasks : list task_instance) (host : string) :
  wait_counts (hooks_plan tasks host) = [].
Proof. induction tasks; simpl; auto. Qed.

Section CyclesOfARun.

Variables (brokers : list broker) (jolokia_port : Z) (jolokia_prefix : string)
          (check_interval check_count unhealthy_time_limit skip : Z)
          (pre_stop_task post_stop_task : list task_instance)
          (stop_command : string).

Let cycle := cycle_plan brokers jolokia_port jolokia_prefix check_interval
               check_count unhealthy_time_limit skip pre_stop_task
               post_stop_task stop_command.

Lemma stop_operations_cycle (n : Z) (host : string) :
  stop_operations (cycle n host) = [host].
Proof.
  unfold cycle, cycle_plan, body_plan. cbn [stop_operations].
  rewrite !stop_operations_app, !stop_operations_hooks. reflexivity.
Qed.

Lemma wait_counts_cycle (n : Z) (host : string) :
  wait_counts (cycle n host) = [if n =? 0 then 1 else check_count].
Proof.
  unfold cycle, cycle_plan, body_plan. cbn [wait_counts].
  rewrite !wait_counts_app, !wait_counts_hooks. reflexivity.
Qed.

End CyclesOfARun.

Lemma sessions_opened_app (l1 l2 : list event) :
  sessions_opened (l1 ++ l2) = sessions_opened l1 ++ sessions_opened l2.
Proof.
  induction l1 as [|e l1 IH]; [reflexivity|].
  destruct e; simpl; rewrite IH; reflexivity.
Qed.

Lemma sessions_opened_hooks (tasks : list task_instance) (host : string) :
  sessions_opened (hooks_plan tasks host) = [].
Proof. induction tasks; simpl; auto. Qed.

Lemma commands_issued_app (l1 l2 : list event) :
  commands_issued (l1 ++ l2) = commands_issued l1 ++ commands_issued l2.
Proof.
  induction l1 as [|e l1 IH]; [reflexivity|].
  destruct e; simpl; rewrite IH; reflexivity.
Qed.

Lemma commands_issued_hooks (tasks : list task_instance) (host : string) :
  commands_issued (hooks_plan tasks host) = [].
Proof. induction tasks; simpl; auto. Qed.

Lemma sessions_opened_cycle (brokers : list broker) (jolokia_port : Z)
    (jolokia_prefix : string)
    (check_interval check_count unhealthy_time_limit skip : Z)
    (pre_stop_task post_stop_task : list task_instance) (stop_command : string)
    (n : Z) (host : string) :
  sessions_opened
    (cycle_plan brokers jolokia_port jolokia_prefix check_interval check_count
       unhealthy_time_limit skip pre_stop_task post_stop_task stop_command
       n host) = [host].
Proof.
  unfold cycle_plan, body_plan. cbn [sessions_opened].
  rewrite !sessions_opened_app, !sessions_opened_hooks. reflexivity.
Qed.

Lemma commands_issued_cycle (brokers : list broker) (jolokia_port : Z)
    (jolokia_prefix : string)
    (check_interval check_count unhealthy_time_limit skip : Z)
    (pre_stop_task post_stop_task : list task_instance) (stop_command : string)
    (n : Z) (host : string) :
  commands_issued
    (cycle_plan brokers jolokia_port jolokia_prefix check_interval check_count
       unhealthy_time_limit skip pre_stop_task post_stop_task stop_command
       n host) = [].
Proof.
  unfold cycle_plan, body_plan. cbn [commands_issued].
  rewrite !commands_issued_app, !commands_issued_hooks. reflexivity.
Qed.

(** C4: with five brokers and [skip = 2], a run that completes processes
    exactly the brokers at positions 2, 3 and 4, in that order (its events
    are their three cycles followed by the closing wait, and sessions are
    opened to those three hosts), and the stability wait of the first cycle
    asks for [1] consecutive healthy check while the waits of the other two
    cycles (and the closing wait) ask for [check_count].  But it issues no
    stop operation at all, where the claim says three: [decommission_broker]
    is called in each cycle and does nothing, so no command reaches any of
    the three hosts. *)
Theorem C4_skip_two_of_five (E : environment) (b0 b1 b2 b3 b4 : broker)
    (jolokia_port : Z) (jolokia_prefix : string)
    (check_interval check_count unhealthy_time_limit : Z) (verbose : bool)
    (pre_stop_task post_stop_task : list task_instance)
    (start_command stop_command : string) (ssh_password : option string)
    (w : world) :
  let brokers := [b0; b1; b2; b3; b4] in
  let cycle := cycle_plan brokers jolokia_port jolokia_prefix check_interval
                 check_count unhealthy_time_limit 2 pre_stop_task
                 post_stop_task stop_command in
  let rw := execute_rolling_decommission E brokers jolokia_port jolokia_prefix
              check_interval check_count unhealthy_time_limit 2 verbose
              pre_stop_task post_stop_task start_command stop_command
              ssh_password w in
  fst rw = Return tt ->
  exists evs,
    snd rw = mkWorld (trace w ++ evs) (stdin w) /\
    evs = cycle 0 (snd b2) ++ cycle 1 (snd b3) ++ cycle 2 (snd b4)
          ++ [final_wait brokers jolokia_port jolokia_prefix check_interval
                check_count unhealthy_time_limit true] /\
    sessions_opened evs = [snd b2; snd b3; snd b4] /\
    wait_counts evs = [1; check_count; check_count; check_count] /\
    commands_issued evs = [].
Proof.
  intros brokers cycle rw Hr. subst rw.
  destruct (execute_rolling_decommission _ _ _ _ _ _ _ _ _ _ _ _ _ _ w) as [r w'] eqn:Ex.
  simpl in Hr. subst r.
  apply decommission_follows_plan in Ex as (evs & -> & Hu).
  exists evs. split; [reflexivity|]. simpl in Hu. subst evs.
  assert (Hplan :
    decommission_plan brokers jolokia_port jolokia_prefix check_interval
      check_count unhealthy_time_limit 2 pre_stop_task post_stop_task stop_command
    = cycle 0 (snd b2) ++ cycle 1 (snd b3) ++ cycle 2 (snd b4)
      ++ [final_wait brokers jolokia_port jolokia_prefix check_interval
            check_count unhealthy_time_limit true]).
  { unfold decommission_plan, cycles_plan, brokers.
    change (enumerate (slice_from 2 (map snd [b0; b1; b2; b3; b4])))
      with [(0, snd b2); (1, snd b3); (2, snd b4)].
    cbn [flat_map]. rewrite app_nil_r, <- !app_assoc. reflexivity. }
  rewrite Hplan. split; [reflexivity|]. split; [|split].
  - rewrite !sessions_opened_app. unfold cycle.
    rewrite !sessions_opened_cycle. reflexivity.
  - rewrite !wait_counts_app. unfold cycle.
    rewrite !wait_counts_cycle. reflexivity.
  - rewrite !commands_issued_app. unfold cycle.
    rewrite !commands_issued_cycle. reflexivity.
Qed.

(** C4 at work: five brokers, [skip = 2], one pre-stop and one post-stop
    task, in the calm environment; the run completes. *)
Lemma C4_skip_two_of_five_witness :
  fst (execute_rolling_decommission calm
         [(1, "A"); (2, "B"); (3, "C"); (4, "D"); (5, "E")] 8778 "jolokia/"
         10 12 600 2 false [task_p] [task_q] "start" "stop" None fresh)
    = Return tt /\
  exists evs,
    snd (execute_rolling_decommission calm
           [(1, "A"); (2, "B"); (3, "C"); (4, "D"); (5, "E")] 8778 "jolokia/"
           10 12 600 2 false [task_p] [task_q] "start" "stop" None fresh)
      = mkWorld (trace fresh ++ evs) (stdin fresh) /\
    sessions_opened evs = ["C"; "D"; "E"] /\
    wait_counts evs = [1; 12; 12; 12] /\
    commands_issued evs = [].
Proof.
  split; [reflexivity|].
  destruct (C4_skip_two_of_five calm (1, "A") (2, "B") (3, "C") (4, "D") (5, "E")
              8778 "jolokia/" 10 12 600 false [task_p] [task_q] "start" "stop"
              None fresh eq_refl) as (evs & Hw & _ & Hs & Hc & Hn).
  exists evs. repeat split; assumption.
Defined.

(** ** The closing wait (C6) *)

Lemma failure_differs (good bad : event) (e : exn) :
  failure good = Some (bad, e) -> good <> bad.
Proof.
  destruct good as [| | | |t h [|]|hs p x i c l [|]| |]; simpl; intros H;
    inversion H; subst; discriminate.
Qed.

Lemma nth_error_firstn_app {A} (k : nat) (l t : list A) (b : A) :
  (k <= List.length l)%nat -> nth_error (firstn k l ++ b :: t) k = Some b.
Proof.
  intros Hk. rewrite nth_error_app2; rewrite length_firstn, Nat.min_l by lia.
  - now rewrite Nat.sub_diag.
  - lia.
Qed.

(** C6: after the cycle of the last processed broker the sequencer performs
    exactly one more stability wait, with the configured [check_count], and
    the run is complete only if that wait succeeds.  A run that returns
    consists of the cycles followed by that single wait; and whenever all
    cycles have been completed, what follows them is that single wait,
    whose outcome is the outcome of the run. *)
Theorem C6_closing_wait (E : environment)
    (brokers : list broker) (jolokia_port : Z) (jolokia_prefix : string)
    (check_interval check_count unhealthy_time_limit skip : Z) (verbose : bool)
    (pre_stop_task post_stop_task : list task_instance)
    (start_command stop_command : string) (ssh_password : option string)
    (w : world) :
  let all_hosts := map snd brokers in
  let cycles := cycles_plan brokers jolokia_port jolokia_prefix check_interval
                  check_count unhealthy_time_limit skip pre_stop_task
                  post_stop_task stop_command
                  (enumerate (slice_from skip all_hosts)) in
  let closing_wait ok := EvWait all_hosts jolokia_port jolokia_prefix
                           check_interval check_count unhealthy_time_limit ok in
  let rw := execute_rolling_decommission E brokers jolokia_port jolokia_prefix
              check_interval check_count unhealthy_time_limit skip verbose
              pre_stop_task post_stop_task start_command stop_command
              ssh_password w in
  (fst rw = Return tt ->
   snd rw = mkWorld (trace w ++ cycles ++ [closing_wait true]) (stdin w)) /\
  (forall rest, trace (snd rw) = trace w ++ cycles ++ rest ->
     exists ok, rest = [closing_wait ok] /\
                fst rw = if ok then Return tt else Raise WaitTimeoutException).
Proof.
  intros all_hosts cycles closing_wait rw. subst rw.
  destruct (execute_rolling_decommission _ _ _ _ _ _ _ _ _ _ _ _ _ _ w) as [r w'] eqn:Ex.
  apply decommission_follows_plan in Ex as (evs & -> & Hu).
  unfold decommission_plan in Hu. fold all_hosts in Hu. fold cycles in Hu.
  change (final_wait brokers jolokia_port jolokia_prefix check_interval
            check_count unhealthy_time_limit true) with (closing_wait true) in Hu.
  cbn [fst snd trace]. split.
  - intros ->. simpl in Hu. now subst evs.
  - intros rest Hrest. apply app_inv_head in Hrest.
    destruct r as [[]|e]; simpl in Hu.
    + subst evs. apply app_inv_head in Hrest. subst rest.
      exists true. split; reflexivity.
    + destruct Hu as (k & good & bad & Hk & Hfail & ->).
      assert (Hlen : (k < List.length (cycles ++ [closing_wait true]))%nat)
        by (apply nth_error_Some; rewrite Hk; discriminate).
      rewrite length_app in Hlen. simpl in Hlen.
      destruct (Nat.eq_dec k (List.length cycles)) as [->|Hne].
      * rewrite nth_error_app2, Nat.sub_diag in Hk by lia.
        inversion Hk; subst good; clear Hk. inversion Hfail; subst bad e; clear Hfail.
        rewrite firstn_app, firstn_all, Nat.sub_diag, app_nil_r in Hrest.
        unfold closing in Hrest.
        unfold cycles in Hrest at 2. rewrite cycles_close_their_sessions in Hrest.
        apply app_inv_head in Hrest.
        subst rest. exists false. split; reflexivity.
      * exfalso. assert (Hlt : (k < List.length cycles)%nat) by lia.
        rewrite nth_error_app1 in Hk by lia.
        rewrite firstn_app in Hrest.
        replace (k - List.length cycles)%nat with 0%nat in Hrest by lia.
        simpl in Hrest. rewrite app_nil_r in Hrest.
        apply (f_equal (fun l => nth_error l k)) in Hrest.
        rewrite nth_error_firstn_app in Hrest by lia.
        rewrite nth_error_app1, Hk in Hrest by lia.
        inversion Hrest. apply (failure_differs Hfail). congruence.
Qed.

(** A run to which both halves of C6 apply: two brokers, nothing fails. *)
Lemma C6_closing_wait_witness :
  let rw := execute_rolling_decommission calm [(1, "A"); (2, "B")] 8778 "jolokia/"
              10 12 600 0 false [task_p] [task_q] "start" "stop" None fresh in
  let cycles := cycles_plan [(1, "A"); (2, "B")] 8778 "jolokia/" 10 12 600 0
                  [task_p] [task_q] "stop" [(0, "A"); (1, "B")] in
  let closing_wait ok := EvWait ["A"; "B"] 8778 "jolokia/" 10 12 600 ok in
  (fst rw = Return tt /\
   snd rw = mkWorld (cycles ++ [closing_wait true]) []) /\
  (trace (snd rw) = cycles ++ [closing_wait true] /\
   exists ok, [closing_wait true] = [closing_wait ok] /\
              fst rw = if ok then Return tt else Raise WaitTimeoutException).
Proof.
  intros rw cycles closing_wait.
  pose proof (C6_closing_wait calm [(1, "A"); (2, "B")] 8778 "jolokia/" 10 12 600 0
                false [task_p] [task_q] "start" "stop" None fresh) as [H1 H2].
  split.
  - split; [reflexivity|]. exact (H1 eq_refl).
  - split; [reflexivity|]. exact (H2 [closing_wait true] eq_refl).
Defined.

(** ** The scope of the SSH session (C5) *)

Lemma new_events_app (w : world) (evs : list event) (input : list string) :
  new_events w (mkWorld (trace w ++ evs) input) = evs.
Proof.
  unfold new_events. simpl. rewrite skipn_app, skipn_all, Nat.sub_diag.
  reflexivity.
Qed.

Lemma sessions_after_cons (e : event) (l : list event) (open : list string) :
  sessions_after open (e :: l) = sessions_after (sessions_after open [e]) l.
Proof. destruct e; reflexivity. Qed.

Lemma scoped_app (l1 l2 : list event) (open : list string) (more : bool) :
  scoped open (l1 ++ l2) more
  = scoped open l1 (more || negb (is_nil l2))
    && scoped (sessions_after open l1) l2 more.
Proof.
  revert open. induction l1 as [|e l1 IH]; intros open; [reflexivity|].
  cbn [app scoped]. rewrite IH, (sessions_after_cons e l1), <- andb_assoc.
  f_equal. f_equal. destruct l1; [|reflexivity].
  destruct l2, more; reflexivity.
Qed.

Lemma scoped_split (l1 l2 : list event) (e : event) (open : list string) (more : bool) :
  scoped open (l1 ++ e :: l2) more = true ->
  session_rule (sessions_after open l1) e (is_nil l2 && negb more) = true.
Proof.
  rewrite scoped_app. intros H. apply andb_prop in H as [_ H].
  cbn [scoped] in H. now apply andb_prop in H as [H _].
Qed.

Lemma hooks_scoped (tasks : list task_instance) (host : string) (more : bool) :
  scoped [host] (hooks_plan tasks host) more = true.
Proof.
  induction tasks as [|t tasks IH]; [reflexivity|].
  cbn [hooks_plan map scoped session_rule only_session sessions_after].
  rewrite String.eqb_refl. exact IH.
Qed.

Section ScopeOfThePlan.

Variables (brokers : list broker) (jolokia_port : Z) (jolokia_prefix : string)
          (check_interval check_count unhealthy_time_limit skip : Z)
          (pre_stop_task post_stop_task : list task_instance)
          (stop_command : string).

Let cycle := cycle_plan brokers jolokia_port jolokia_prefix check_interval
               check_count unhealthy_time_limit skip pre_stop_task
               post_stop_task stop_command.
Let cycles := cycles_plan brokers jolokia_port jolokia_prefix check_interval
                check_count unhealthy_time_limit skip pre_stop_task
                post_stop_task stop_command.

Lemma cycle_scoped (n : Z) (host : string) (more : bool) :
  scoped [] (cycle n host) more = true.
Proof.
  unfold cycle, cycle_plan, body_plan.
  cbn [scoped session_rule is_nil sessions_after andb].
  rewrite !scoped_app.
  rewrite !sessions_after_app.
  rewrite !(sessions_after_no_ssh _ _ (hooks_no_ssh _ _)).
  cbn [sessions_after]. rewrite !hooks_scoped.
  cbn [scoped session_rule only_session is_nil sessions_after close_session].
  rewrite String.eqb_refl. destruct more; reflexivity.
Qed.

Lemma cycles_scoped (numbered : list (Z * string)) (more : bool) :
  scoped [] (cycles numbered) more = true.
Proof.
  induction numbered as [|[n host] l IH]; [reflexivity|].
  unfold cycles, cycles_plan in *. cbn [flat_map]. rewrite scoped_app.
  fold (cycle n host).
  rewrite cycle_scoped. unfold cycle.
  rewrite (cycle_closes_its_session brokers jolokia_port jolokia_prefix
             check_interval check_count unhealthy_time_limit skip
             pre_stop_task post_stop_task stop_command n host []).
  exact IH.
Qed.

Lemma plan_scoped :
  scoped []
    (decommission_plan brokers jolokia_port jolokia_prefix check_interval
       check_count unhealthy_time_limit skip pre_stop_task post_stop_task
       stop_command) false = true.
Proof.
  unfold decommission_plan. rewrite scoped_app.
  fold (cycles (enumerate (slice_from skip (map snd brokers)))).
  rewrite cycles_scoped. unfold cycles.
  rewrite cycles_close_their_sessions. reflexivity.
Qed.

Lemma plan_closes_its_sessions :
  sessions_after []
    (decommission_plan brokers jolokia_port jolokia_prefix check_interval
       check_count unhealthy_time_limit skip pre_stop_task post_stop_task
       stop_command) = [].
Proof.
  unfold decommission_plan. rewrite sessions_after_app.
  rewrite cycles_close_their_sessions. reflexivity.
Qed.

End ScopeOfThePlan.

(** A run that unfolds a well-scoped plan is well scoped, and leaves no
    session open, however it ends. *)
Lemma unfolds_scoped {A} (plan evs : list event) (r : result A) :
  scoped [] plan false = true -> sessions_after [] plan = [] ->
  unfolds plan r evs ->
  scoped [] evs false = true /\ sessions_after [] evs = [].
Proof.
  intros Hs Hc Hu. destruct r as [a|e]; simpl in Hu; [subst; auto|].
  destruct Hu as (k & good & bad & Hk & Hfail & ->).
  apply nth_error_split in Hk as (l1 & l2 & -> & <-).
  replace (firstn (List.length l1) (l1 ++ good :: l2)) with l1
    by (rewrite firstn_app, firstn_all, Nat.sub_diag; cbn [firstn];
        now rewrite app_nil_r).
  unfold closing.
  rewrite scoped_app in Hs. apply andb_prop in Hs as [Hs1 Hs2].
  cbn [scoped] in Hs2. apply andb_prop in Hs2 as [Hg _].
  rewrite scoped_app, sessions_after_app.
  cbn [is_nil negb orb andb] in *. rewrite Hs1. cbn [andb].
  destruct good as [| | | |t h [|]|hs p x i c l [|]| |]; simpl in Hfail;
    inversion Hfail; subst; clear Hfail;
    destruct (sessions_after [] l1) as [|h1 [|h2 s]]; simpl in Hg;
    try discriminate; simpl; rewrite ?Hg; auto.
  - apply String.eqb_eq in Hg. subst. rewrite String.eqb_refl. auto.
  - rewrite String.eqb_refl. auto.
Qed.

(** C5, as the specification words it, fails: with one broker [A], a
    pre-stop task and a post-stop task, the session to [A] is already open
    when the pre-stop hook runs (and stays open during the stability wait
    and the post-stop hook). *)
Lemma C5_session_open_outside_the_stop :
  let rw := execute_rolling_decommission calm [(1, "A")] 8778 "jolokia/" 10 12 600 0
              false [task_p] [task_q] "start" "stop" None fresh in
  let evs := new_events fresh (snd rw) in
  ~ (forall l1 e l2, evs = l1 ++ e :: l2 ->
       spec_session_rule (sessions_after [] l1) e = true).
Proof.
  intros rw evs H.
  specialize (H [EvSshOpen "A"] (EvTask task_p "A" true)
                [EvWait ["A"] 8778 "jolokia/" 10 1 600 true;
                 EvPrint "Stopping A (1/1)";
                 EvDecommission "A" "stop";
                 EvTask task_q "A" true;
                 EvSshClose "A";
                 EvWait ["A"] 8778 "jolokia/" 10 12 600 true] eq_refl).
  discriminate H.
Qed.

(** C5 (amended): in every broker's cycle the SSH session is opened first
    and stays open during the pre-stop hooks, the stability wait, the stop
    operation and the post-stop hooks of that broker, and it is closed, on
    success or failure, before the sequencer moves on: when a run ends, in
    whatever way, no session is open; a connection is attempted only when no
    session is open; every hook and stop operation happens while exactly the
    session to its host is open; every stability wait but the closing one
    happens inside a session. *)
Theorem C5_session_spans_the_cycle (E : environment)
    (brokers : list broker) (jolokia_port : Z) (jolokia_prefix : string)
    (check_interval check_count unhealthy_time_limit skip : Z) (verbose : bool)
    (pre_stop_task post_stop_task : list task_instance)
    (start_command stop_command : string) (ssh_password : option string)
    (w : world) :
  let rw := execute_rolling_decommission E brokers jolokia_port jolokia_prefix
              check_interval check_count unhealthy_time_limit skip verbose
              pre_stop_task post_stop_task start_command stop_command
              ssh_password w in
  let evs := new_events w (snd rw) in
  sessions_after [] evs = [] /\
  forall l1 e l2, evs = l1 ++ e :: l2 ->
    session_rule (sessions_after [] l1) e (is_nil l2) = true.
Proof.
  intros rw evs. subst evs rw.
  destruct (execute_rolling_decommission _ _ _ _ _ _ _ _ _ _ _ _ _ _ w) as [r w'] eqn:Ex.
  apply decommission_follows_plan in Ex as (evs & -> & Hu).
  cbn [snd]. rewrite new_events_app.
  apply unfolds_scoped in Hu as [Hs Hc];
    [|apply plan_scoped|apply plan_closes_its_sessions].
  split; [exact Hc|]. intros l1 e l2 ->.
  apply scoped_split in Hs. now rewrite andb_true_r in Hs.
Qed.

(** C5 at work: in the run of the counterexample the pre-stop hook on [A]
    happens while the session to [A] is the only one open. *)
Lemma C5_session_spans_the_cycle_witness :
  let rw := execute_rolling_decommission calm [(1, "A")] 8778 "jolokia/" 10 12 600 0
              false [task_p] [task_q] "start" "stop" None fresh in
  let l2 := [EvWait ["A"] 8778 "jolokia/" 10 1 600 true;
             EvPrint "Stopping A (1/1)";
             EvDecommission "A" "stop";
             EvTask task_q "A" true;
             EvSshClose "A";
             EvWait ["A"] 8778 "jolokia/" 10 12 600 true] in
  new_events fresh (snd rw) = [EvSshOpen "A"] ++ EvTask task_p "A" true :: l2 /\
  session_rule (sessions_after [] [EvSshOpen "A"]) (EvTask task_p "A" true)
    (is_nil l2) = true.
Proof.
  intros rw l2. split; [reflexivity|].
  exact (proj2 (C5_session_spans_the_cycle calm [(1, "A")] 8778 "jolokia/" 10 12
                  600 0 false [task_p] [task_q] "start" "stop" None fresh)
               [EvSshOpen "A"] (EvTask task_p "A" true) l2 eq_refl).
Defined.

(** ** Validation (C8, C10) *)

Lemma bind_return {A B} (m : M A) (f : A -> M B) (w w1 : world) (a : A) :
  m w = (Return a, w1) -> bind m f w = f a w1.
Proof. intros H. unfold bind. now rewrite H. Qed.

Lemma bind_raise {A B} (m : M A) (f : A -> M B) (w w1 : world) (e : exn) :
  m w = (Raise e, w1) -> bind m f w = (Raise e, w1).
Proof. intros H. unfold bind. now rewrite H. Qed.

Lemma trace_nil_r (w : world) : mkWorld (trace w ++ []) (stdin w) = w.
Proof. rewrite app_nil_r. apply world_eta. Qed.

Lemma validate_opts_decides (opts : options) (brokers_num : Z) (w : world) :
  exists evs,
    validate_opts opts brokers_num w
      = (Return (invalid_opts opts brokers_num),
         mkWorld (trace w ++ evs) (stdin w)) /\
    forallb is_print evs = true.
Proof.
  unfold validate_opts, invalid_opts.
  destruct (skip opts <? 0); [eexists; split; reflexivity|].
  destruct (skip opts >=? brokers_num); [eexists; split; reflexivity|].
  destruct (check_count opts <? 0); [eexists; split; reflexivity|].
  destruct (unhealthy_time_limit opts <? 0); [eexists; split; reflexivity|].
  destruct (check_count opts =? 0), (check_interval opts <? 0); cbn;
    try (eexists; split; [rewrite <- app_assoc|]; reflexivity);
    try (eexists; split; reflexivity).
  - exists []. now rewrite trace_nil_r.
Qed.

Lemma validate_ids_loop (all_ids subset_ids : list Z) (valid : bool) (w : world) :
  exists evs,
    for_fold subset_ids valid (fun subset_id valid =>
      bind (if negb (int_in subset_id all_ids)
            then print ("Error: user specified broker id " ++ str_of_int subset_id
                        ++ " does not exist in cluster.")%string
            else ret tt)
           (fun _ => ret (valid && int_in subset_id all_ids))) w
      = (Return (valid && forallb (fun i => int_in i all_ids) subset_ids),
         mkWorld (trace w ++ evs) (stdin w)) /\
    forallb is_print evs = true.
Proof.
  revert valid w. induction subset_ids as [|i l IH]; intros valid w.
  - exists []. cbn. now rewrite trace_nil_r, andb_true_r.
  - cbn [for_fold forallb].
    destruct (int_in i all_ids) eqn:Hi; cbn [negb].
    + destruct (IH (valid && true) w) as (evs & Heq & Hp).
      exists evs. split; [|exact Hp].
      erewrite bind_return by reflexivity. rewrite Heq.
      now rewrite !andb_true_r.
    + destruct (IH (valid && false)
                  (mkWorld (trace w ++ [EvPrint ("Error: user specified broker id "
                     ++ str_of_int i ++ " does not exist in cluster.")%string])
                     (stdin w))) as (evs & Heq & Hp).
      exists (EvPrint ("Error: user specified broker id " ++ str_of_int i
                       ++ " does not exist in cluster.")%string :: evs).
      split; [|exact Hp].
      erewrite bind_return by reflexivity. rewrite Heq. cbn [trace stdin].
      rewrite <- app_assoc, !andb_false_r. reflexivity.
Qed.

Lemma validate_broker_ids_subset_decides (all_ids subset_ids : list Z) (w : world) :
  exists evs,
    validate_broker_ids_subset all_ids subset_ids w
      = (Return (forallb (fun i => int_in i all_ids) subset_ids),
         mkWorld (trace w ++ evs) (stdin w)) /\
    forallb is_print evs = true.
Proof. apply (validate_ids_loop all_ids subset_ids true w). Qed.

(** [run] stops with status [1], having only printed, when the requested
    ids are not all in the cluster or the options are not valid for the
    selected brokers. *)
Lemma run_rejects (E : environment) (opts : options) (w : world) :
  let cluster := get_broker_list E (get_cluster_config E (cluster_type opts)
                   (cluster_name opts) (discovery_base_path opts)) in
  (exists ids, broker_ids opts = Some ids /\
               forallb (fun i => int_in i (map fst cluster)) ids = false) \/
  invalid_opts opts (len (selected_brokers E opts)) = true ->
  exists evs,
    run E opts w = (Raise (SystemExit 1), mkWorld (trace w ++ evs) (stdin w)) /\
    forallb is_print evs = true.
Proof.
  intros cluster H. unfold run. fold cluster.
  unfold selected_brokers in H. fold cluster in H.
  assert (Hopts : forall (brokers : list broker) w1 (k : bool -> M unit) evs0,
            invalid_opts opts (len brokers) = true ->
            w1 = mkWorld (trace w ++ evs0) (stdin w) ->
            forallb is_print evs0 = true ->
            exists evs,
              bind (validate_opts opts (len brokers))
                   (fun invalid => bind (if invalid then sys_exit 1 else ret tt)
                                        (fun _ => k invalid)) w1
                = (Raise (SystemExit 1), mkWorld (trace w ++ evs) (stdin w)) /\
              forallb is_print evs = true).
  { intros brokers w1 k evs0 Hinv -> Hp0.
    destruct (validate_opts_decides opts (len brokers)
                (mkWorld (trace w ++ evs0) (stdin w))) as (evs1 & Heq & Hp1).
    exists (evs0 ++ evs1). split.
    - erewrite bind_return by exact Heq. rewrite Hinv. cbn.
      now rewrite app_assoc.
    - now rewrite forallb_app, Hp0, Hp1. }
  destruct (broker_ids opts) as [[|id0 ids]|] eqn:Hids.
  - destruct H as [(ids' & Heq & Hbad)|H]; [inversion Heq; subst; discriminate|].
    erewrite bind_return by reflexivity.
    eapply (Hopts cluster w _ []); auto. now rewrite trace_nil_r.
  - destruct (validate_broker_ids_subset_decides (map fst cluster) (id0 :: ids) w)
      as (evs0 & Heq & Hp0).
    destruct (forallb (fun i => int_in i (map fst cluster)) (id0 :: ids)) eqn:Hvalid.
    + destruct H as [(ids' & Heq' & Hbad)|H];
        [inversion Heq'; subst; congruence|].
      erewrite bind_return; cycle 1.
      { erewrite bind_return by exact Heq. cbn. reflexivity. }
      eapply (Hopts _ _ _ evs0); eauto.
    + exists evs0. split; [|exact Hp0].
      erewrite bind_raise; [reflexivity|].
      erewrite bind_return by exact Heq. reflexivity.
  - destruct H as [(ids' & Heq & Hbad)|H]; [discriminate|].
    erewrite bind_return by reflexivity.
    eapply (Hopts cluster w _ []); auto. now rewrite trace_nil_r.
Qed.

Lemma forallb_false_of_missing (all_ids ids : list Z) (id : Z) :
  In id ids -> ~ In id all_ids ->
  forallb (fun i => int_in i all_ids) ids = false.
Proof.
  intros Hin Hout. destruct (forallb _ ids) eqn:Hf; [|reflexivity].
  exfalso. rewrite forallb_forall in Hf. specialize (Hf id Hin).
  unfold int_in in Hf. apply existsb_exists in Hf as (x & Hx & Heq).
  apply Z.eqb_eq in Heq. subst. contradiction.
Qed.

(** C8: whenever [skip] is negative or not less than the number of selected
    brokers, or [check_count], [unhealthy_time_limit] or [check_interval] is
    negative, or the requested broker ids contain an id that is not in the
    cluster, [run] prints, touches no broker and exits with status [1]; and
    a [check_count] of exactly [0], with the other options in range, passes
    [validate_opts], which only prints a warning. *)
Theorem C8_invalid_configuration_is_rejected (E : environment) (opts : options)
    (w : world) :
  let cluster := get_broker_list E (get_cluster_config E (cluster_type opts)
                   (cluster_name opts) (discovery_base_path opts)) in
  ((exists ids id, broker_ids opts = Some ids /\ In id ids /\
                   ~ In id (map fst cluster)) \/
   skip opts < 0 \/ skip opts >= len (selected_brokers E opts) \/
   check_count opts < 0 \/ unhealthy_time_limit opts < 0 \/
   check_interval opts < 0 ->
   exists evs,
     run E opts w = (Raise (SystemExit 1), mkWorld (trace w ++ evs) (stdin w)) /\
     forallb is_print evs = true /\
     exit_code (fst (run E opts w)) <> 0) /\
  (forall brokers_num,
     check_count opts = 0 -> 0 <= skip opts < brokers_num ->
     0 <= unhealthy_time_limit opts -> 0 <= check_interval opts ->
     validate_opts opts brokers_num w
       = (Return false,
          mkWorld (trace w ++ [EvPrint "Warning: no check will be performed"])
                  (stdin w))).
Proof.
  intros cluster. split.
  - intros H.
    destruct (run_rejects E opts w) as (evs & Heq & Hp).
    { fold cluster. unfold invalid_opts.
      destruct H as [(ids & id & Hids & Hin & Hout)|H].
      - left. exists ids. split; [exact Hids|].
        now apply forallb_false_of_missing with id.
      - right. repeat rewrite orb_true_iff.
        rewrite !Z.ltb_lt, Z.geb_le. lia. }
    exists evs. rewrite Heq. repeat split; auto. cbn. discriminate.
  - intros n Hcc Hskip Hlimit Hint. unfold validate_opts.
    replace (skip opts <? 0) with false by (symmetry; apply Z.ltb_ge; lia).
    replace (skip opts >=? n) with false
      by (symmetry; rewrite Z.geb_leb; apply Z.leb_gt; lia).
    replace (check_count opts <? 0) with false by (symmetry; apply Z.ltb_ge; lia).
    replace (unhealthy_time_limit opts <? 0) with false
      by (symmetry; apply Z.ltb_ge; lia).
    replace (check_count opts =? 0) with true by (symmetry; apply Z.eqb_eq; lia).
    replace (check_interval opts <? 0) with false
      by (symmetry; apply Z.ltb_ge; lia).
    reflexivity.
Qed.

(** C8 at work: the subset [{1, 9}] of a cluster with ids [1..5] is
    rejected; a check count of [0] is accepted with a warning. *)
Lemma C8_invalid_configuration_is_rejected_witness :
  ((In 9 [1; 9] /\ ~ In 9 [1; 2; 3; 4; 5]) /\
   exists evs,
     run calm (calm_opts 0 12 (Some [1; 9])) fresh
       = (Raise (SystemExit 1), mkWorld (trace fresh ++ evs) (stdin fresh)) /\
     forallb is_print evs = true /\
     exit_code (fst (run calm (calm_opts 0 12 (Some [1; 9])) fresh)) <> 0) /\
  ((0 <= 0 < 5 /\ 0 <= 600 /\ 0 <= 10) /\
   validate_opts (calm_opts 0 0 None) 5 fresh
     = (Return false, mkWorld [EvPrint "Warning: no check will be performed"] [])).
Proof.
  assert (Hin : In 9 [1; 9]) by (right; left; reflexivity).
  assert (Hout : ~ In 9 [1; 2; 3; 4; 5])
    by (intros H; repeat (destruct H as [H|H]; [discriminate H|]); exact H).
  split; split.
  - split; assumption.
  - apply (proj1 (C8_invalid_configuration_is_rejected calm
                    (calm_opts 0 12 (Some [1; 9])) fresh)).
    left. exists [1; 9], 9. repeat split; assumption.
  - lia.
  - apply (proj2 (C8_invalid_configuration_is_rejected calm
                    (calm_opts 0 0 None) fresh) 5); cbn; lia.
Defined.

(** C10: when the selected broker list is empty, [validate_opts] rejects
    every [skip], so [run] only prints and exits with status [1]. *)
Theorem C10_empty_broker_list_is_rejected (E : environment) (opts : options)
    (w : world) :
  selected_brokers E opts = [] ->
  fst (validate_opts opts (len (selected_brokers E opts)) w) = Return true /\
  exists evs,
    run E opts w = (Raise (SystemExit 1), mkWorld (trace w ++ evs) (stdin w)) /\
    forallb is_print evs = true /\
    exit_code (fst (run E opts w)) = 1.
Proof.
  intros Hempty.
  assert (Hinv : invalid_opts opts (len (selected_brokers E opts)) = true).
  { rewrite Hempty. unfold invalid_opts. cbn [len List.length Z.of_nat].
    destruct (skip opts <? 0) eqn:Hneg; [reflexivity|].
    apply Z.ltb_ge in Hneg.
    replace (skip opts >=? 0) with true
      by (symmetry; rewrite Z.geb_leb; apply Z.leb_le; lia).
    reflexivity. }
  split.
  - destruct (validate_opts_decides opts (len (selected_brokers E opts)) w)
      as (evs & Heq & _).
    now rewrite Heq, Hinv.
  - destruct (run_rejects E opts w) as (evs & Heq & Hp); [now right|].
    exists evs. rewrite Heq. repeat split; auto.
Qed.

Lemma C10_empty_broker_list_is_rejected_witness :
  selected_brokers deserted (calm_opts 0 12 None) = [] /\
  exists evs,
    run deserted (calm_opts 0 12 None) fresh
      = (Raise (SystemExit 1), mkWorld (trace fresh ++ evs) (stdin fresh)) /\
    forallb is_print evs = true /\
    exit_code (fst (run deserted (calm_opts 0 12 None) fresh)) = 1.
Proof.
  split; [reflexivity|].
  apply (C10_empty_broker_list_is_rejected deserted
           (calm_opts 0 12 None) fresh eq_refl).
Defined.

(** ** Loading the task plugins (C3, C9) *)

Lemma for_fold_returns {A S} (body : A -> S -> M S) (xs : list A) :
  (forall x s w, exists s', body x s w = (Return s', w)) ->
  forall s w, exists s', for_fold xs s body w = (Return s', w).
Proof.
  intros Hb. induction xs as [|x xs IH]; intros s w; cbn [for_fold].
  - now exists s.
  - destruct (Hb x s w) as (s1 & H1). destruct (IH s1 w) as (s2 & H2).
    exists s2. erewrite bind_return by exact H1. exact H2.
Qed.

(** [get_task_class] always returns, and leaves no trace: the branch that
    prints the error and exits cannot be reached, because [task_class] is
    always one of the two classes it is compared with. *)
Lemma get_task_class_returns (E : environment) (tasks task_args : list string)
    (w : world) :
  exists lists, get_task_class E tasks task_args w = (Return lists, w).
Proof.
  unfold get_task_class. apply for_fold_returns.
  intros [func arg] lists w1. apply for_fold_returns.
  intros task_class [pre post] w2.
  destruct (dynamic_import E func task_class); [|eexists; reflexivity].
  destruct task_class; eexists; reflexivity.
Qed.

(** C3: a task reference that resolves to neither a [PreStopTask] nor a
    [PostStopTask] is skipped without a word.  For the reference
    [not.a.task] with the argument [x], in the calm environment, where no
    plugin resolves, [get_task_class] returns two empty lists, prints
    nothing and does not exit. *)
Theorem C3_unresolved_task_is_silently_skipped :
  dynamic_import calm "not.a.task" PreStopTask = None /\
  dynamic_import calm "not.a.task" PostStopTask = None /\
  get_task_class calm ["not.a.task"] ["x"] fresh = (Return ([], []), fresh).
Proof. vm_compute. repeat split. Qed.

Lemma zip_firstn {A B} (a : list A) (b : list B) :
  zip a b = zip (firstn (List.length b) a) b.
Proof.
  revert b. induction a as [|x a IH]; intros [|y b]; cbn; try reflexivity.
  now rewrite <- IH.
Qed.

Lemma zip_keys_in {A B} (a : list A) (b : list B) (x : A) (y : B) :
  In (x, y) (zip a b) -> In x (firstn (List.length b) a).
Proof.
  revert b. induction a as [|x0 a IH]; intros [|y0 b]; cbn; try tauto.
  intros [H|H]; [inversion H; auto|right; eauto].
Qed.

Lemma dict_set_keys (k v k' : string) (d : list (string * string)) :
  In k' (map fst (dict_set k v d)) -> k' = k \/ In k' (map fst d).
Proof.
  induction d as [|[k0 v0] d IH]; cbn.
  - intros [H|[]]; auto.
  - destruct (String.eqb k k0) eqn:Hk; cbn.
    + intros [H|H]; auto.
    + intros [H|H]; auto. destruct (IH H); auto.
Qed.

Lemma dict_keys (pairs : list (string * string)) (k : string) :
  In k (map fst (dict pairs)) -> In k (map fst pairs).
Proof.
  unfold dict.
  assert (H : forall d, In k (map fst (fold_left
                (fun d kv => dict_set (fst kv) (snd kv) d) pairs d)) ->
              In k (map fst pairs) \/ In k (map fst d)).
  { induction pairs as [|[k0 v0] l IH]; intros d; cbn; [auto|].
    intros Hin. destruct (IH _ Hin) as [H|H]; auto.
    apply dict_set_keys in H as [H|H]; auto. }
  intros Hin. destruct (H [] Hin) as [H'|[]]. exact H'.
Qed.

Lemma get_task_class_origin (E : environment) (tasks task_args : list string)
    (w w' : world) (pre post : list task_instance) :
  get_task_class E tasks task_args w = (Return (pre, post), w') ->
  Forall (imported_from E (map fst (dict (zip tasks task_args)))) (pre ++ post).
Proof.
  unfold get_task_class.
  generalize (dict (zip tasks task_args)). intros d.
  assert (H : forall d0 pre0 post0 w0,
            Forall (imported_from E (map fst d)) (pre0 ++ post0) ->
            incl d0 d ->
            for_fold d0 (pre0, post0) (fun '(func, task_args) lists =>
              for_fold [PreStopTask; PostStopTask] lists
                (fun task_class '(pre_stop_tasks, post_stop_tasks) =>
                   match dynamic_import E func task_class with
                   | Some imported_class =>
                       if task_class_is task_class PreStopTask then
                         ret (pre_stop_tasks ++ [mkTask imported_class task_args],
                              post_stop_tasks)
                       else if task_class_is task_class PostStopTask then
                         ret (pre_stop_tasks,
                              post_stop_tasks ++ [mkTask imported_class task_args])
                       else
                         bind (print ("ERROR: Class is not a type of Pre/Post StopTask:"
                                      ++ func)%string)
                              (fun _ => sys_exit 1)
                   | None => ret (pre_stop_tasks, post_stop_tasks)
                   end)) w0 = (Return (pre, post), w') ->
            Forall (imported_from E (map fst d)) (pre ++ post)).
  { induction d0 as [|[func arg] d0 IH]; intros pre0 post0 w0 Hacc Hincl; cbn.
    - intros Heq. inversion Heq; subst. exact Hacc.
    - assert (Hfunc : In func (map fst d)).
      { apply in_map_iff. exists (func, arg). split; [reflexivity|].
        apply Hincl. now left. }
      assert (Hrest : incl d0 d) by (intros x Hx; apply Hincl; now right).
      assert (Hadd : forall (a b x y : list task_instance),
                Forall (imported_from E (map fst d)) (a ++ b) ->
                Forall (imported_from E (map fst d)) x ->
                Forall (imported_from E (map fst d)) y ->
                Forall (imported_from E (map fst d)) ((a ++ x) ++ (b ++ y))).
      { intros a b x y Hab Hx Hy. apply Forall_app in Hab as [Ha Hb].
        repeat (apply Forall_app; split); assumption. }
      unfold bind, ret.
      destruct (dynamic_import E func PreStopTask) as [c1|] eqn:H1;
        destruct (dynamic_import E func PostStopTask) as [c2|] eqn:H2; cbn;
        apply IH; auto.
      + apply Hadd; auto; repeat constructor.
        * exists func, PreStopTask. split; assumption.
        * exists func, PostStopTask. split; assumption.
      + rewrite <- (app_nil_r post0). apply Hadd; auto; repeat constructor.
        exists func, PreStopTask. split; assumption.
      + rewrite <- (app_nil_r pre0) at 1. apply Hadd; auto; repeat constructor.
        exists func, PostStopTask. split; assumption. }
  intros Heq. eapply (H d [] [] w); eauto.
  apply incl_refl.
Qed.

(** C9: when there are fewer task arguments than task references,
    [get_task_class] behaves exactly as if the references beyond the length
    of [task_args] had not been given: the result is that of the call on the
    truncated list, it is a pair of lists and no error, nothing is printed,
    and every task instance in it was imported from one of the references
    that were kept. *)
Theorem C9_excess_tasks_are_dropped (E : environment)
    (tasks task_args : list string) (w : world) :
  (List.length task_args < List.length tasks)%nat ->
  let kept := firstn (List.length task_args) tasks in
  get_task_class E tasks task_args w = get_task_class E kept task_args w /\
  exists pre post,
    get_task_class E tasks task_args w = (Return (pre, post), w) /\
    Forall (imported_from E kept) (pre ++ post).
Proof.
  intros _ kept. split.
  - unfold get_task_class. now rewrite (zip_firstn tasks task_args).
  - destruct (get_task_class_returns E tasks task_args w) as ([pre post] & Heq).
    exists pre, post. split; [exact Heq|].
    apply get_task_class_origin in Heq.
    eapply Forall_impl; [|exact Heq].
    intros t (func & c & Hin & Himp). exists func, c. split; [|exact Himp].
    apply dict_keys, in_map_iff in Hin as ([f a] & Hf & Hin).
    cbn in Hf. subst f. eapply zip_keys_in; eassumption.
Qed.

(** C9 at work: two references and one argument; only the first reference
    is loaded. *)
Lemma C9_excess_tasks_are_dropped_witness :
  (List.length ["x"] < List.length ["pre.mod"; "post.mod"])%nat /\
  get_task_class with_plugins ["pre.mod"; "post.mod"] ["x"] fresh
    = get_task_class with_plugins ["pre.mod"] ["x"] fresh /\
  exists pre post,
    get_task_class with_plugins ["pre.mod"; "post.mod"] ["x"] fresh
      = (Return (pre, post), fresh) /\
    Forall (imported_from with_plugins ["pre.mod"]) (pre ++ post).
Proof.
  assert (H : (List.length ["x"] < List.length ["pre.mod"; "post.mod"])%nat)
    by (cbn; lia).
  split; [exact H|].
  exact (C9_excess_tasks_are_dropped with_plugins ["pre.mod"; "post.mod"] ["x"]
           fresh H).
Defined.

(** ** A failed hook aborts the sequencer (C7) *)

Lemma ends_in_bind {A B} (P : result B -> list event -> Prop) (m : M A)
    (f : A -> M B) :
  quiet m -> (forall a, ends_in P (f a)) ->
  (forall e evs, forallb is_print evs = true -> P (Raise e) evs) ->
  (forall r p evs, forallb is_print p = true -> P r evs -> P r (p ++ evs)) ->
  ends_in P (bind m f).
Proof.
  intros Hm Hf Hraise Hprefix w r w' H. unfold bind in H.
  destruct (m w) as [[a|e] w1] eqn:Em.
  - destruct (Hm _ _ _ Em) as (p & Hp & Hq).
    destruct (Hf a _ _ _ H) as (evs & Hevs & HP).
    exists (p ++ evs). split; [now rewrite Hevs, Hp, app_assoc|auto].
  - inversion H; subst. destruct (Hm _ _ _ Em) as (p & Hp & Hq).
    exists p. auto.
Qed.

Lemma quiet_bind {A B} (m : M A) (f : A -> M B) :
  quiet m -> (forall a, quiet (f a)) -> quiet (bind m f).
Proof.
  intros Hm Hf. apply ends_in_bind; auto.
  intros _ p evs Hp He. now rewrite forallb_app, Hp, He.
Qed.

Lemma quiet_ret {A} (a : A) : quiet (ret a).
Proof.
  intros w r w' H. inversion H; subst. exists []. now rewrite app_nil_r.
Qed.

Lemma quiet_raise {A} (e : exn) : quiet (@raise A e).
Proof.
  intros w r w' H. inversion H; subst. exists []. now rewrite app_nil_r.
Qed.

Lemma quiet_print (line : string) : quiet (print line).
Proof. intros w r w' H. inversion H; subst. now exists [EvPrint line]. Qed.

Lemma quiet_for_each {A} (xs : list A) (body : A -> M unit) :
  (forall x, quiet (body x)) -> quiet (for_each xs body).
Proof.
  intros Hb. induction xs; cbn; [apply quiet_ret|].
  apply quiet_bind; auto.
Qed.

Lemma quiet_validate_opts (opts : options) (n : Z) : quiet (validate_opts opts n).
Proof.
  intros w r w' H. destruct (validate_opts_decides opts n w) as (evs & Heq & Hp).
  rewrite Heq in H. inversion H; subst. now exists evs.
Qed.

Lemma quiet_validate_broker_ids_subset (all_ids subset_ids : list Z) :
  quiet (validate_broker_ids_subset all_ids subset_ids).
Proof.
  intros w r w' H.
  destruct (validate_broker_ids_subset_decides all_ids subset_ids w)
    as (evs & Heq & Hp).
  rewrite Heq in H. inversion H; subst. now exists evs.
Qed.

Lemma quiet_get_task_class (E : environment) (tasks task_args : list string) :
  quiet (get_task_class E tasks task_args).
Proof.
  intros w r w' H. destruct (get_task_class_returns E tasks task_args w) as (l & Heq).
  rewrite Heq in H. inversion H; subst. exists []. now rewrite app_nil_r.
Qed.

Lemma quiet_print_brokers (c : cluster_config) (brokers : list broker) :
  quiet (print_brokers c brokers).
Proof.
  unfold print_brokers. apply quiet_bind; [apply quiet_print|].
  intros _. apply quiet_for_each. intros [id host]. apply quiet_print.
Qed.

Lemma quiet_ask_confirmation : quiet ask_confirmation.
Proof.
  intros w r w'. unfold ask_confirmation.
  generalize (stdin w) as lines. intros lines.
  assert (H : forall tr, ask_confirmation_loop lines tr = (r, w') ->
            exists evs, trace w' = tr ++ evs /\ forallb is_print evs = true);
    [|apply H].
  induction lines as [|line rest IH]; intros tr; cbn [ask_confirmation_loop].
  - intros H. inversion H; subst. eexists. split; reflexivity.
  - destruct (str_in (lower line) ["yes"; "y"]).
    { intros H. inversion H; subst. eexists. split; reflexivity. }
    destruct (str_in (lower line) ["no"; "n"]).
    { intros H. inversion H; subst. eexists. split; reflexivity. }
    intros H. apply IH in H as (evs & Heq & Hp).
    eexists (_ :: _ :: evs). rewrite Heq, <- !app_assoc. split; [reflexivity|].
    exact Hp.
Qed.

Lemma forall_firstn {A} (P : A -> bool) (k : nat) (l : list A) :
  forallb P l = true -> forallb P (firstn k l) = true.
Proof.
  revert k; induction l as [|x l IH]; intros [|k] H; cbn in *; auto.
  apply andb_prop in H as [Hx Hl]. now rewrite Hx, IH.
Qed.

Lemma prints_are_no_failures (l : list event) :
  forallb is_print l = true -> forallb (fun e => negb (is_failure e)) l = true.
Proof.
  induction l as [|e l IH]; cbn; [auto|]. intros H.
  apply andb_prop in H as [He Hl]. rewrite IH by exact Hl.
  destruct e; try discriminate. reflexivity.
Qed.

Lemma plan_has_no_failure (brokers : list broker) (jolokia_port : Z)
    (jolokia_prefix : string)
    (check_interval check_count unhealthy_time_limit skip : Z)
    (pre_stop_task post_stop_task : list task_instance) (stop_command : string) :
  forallb (fun e => negb (is_failure e))
    (decommission_plan brokers jolokia_port jolokia_prefix check_interval
       check_count unhealthy_time_limit skip pre_stop_task post_stop_task
       stop_command) = true.
Proof.
  assert (Hhooks : forall tasks host,
            forallb (fun e => negb (is_failure e)) (hooks_plan tasks host) = true)
    by (intros tasks host; induction tasks; cbn; auto).
  unfold decommission_plan, cycles_plan. rewrite forallb_app. cbn.
  rewrite andb_true_r.
  induction (enumerate _) as [|[n host] l IH]; [reflexivity|].
  cbn [flat_map]. rewrite forallb_app, IH, andb_true_r.
  unfold cycle_plan, body_plan. cbn [forallb is_failure negb andb].
  rewrite !forallb_app, !Hhooks. reflexivity.
Qed.

Lemma closing_has_no_failure (l : list event) :
  forallb (fun e => negb (is_failure e)) (closing l) = true.
Proof. unfold closing. induction (sessions_after [] l); cbn; auto. Qed.

Lemma failure_is_failure (good bad : event) (e : exn) :
  failure good = Some (bad, e) -> is_failure bad = true.
Proof.
  destruct good as [| | | |t h [|]|hs p x i c l [|]| |]; simpl; intros H;
    inversion H; reflexivity.
Qed.

Lemma no_split {A} (P : A -> bool) (l1 l2 m : list A) (a : A) :
  l1 ++ a :: l2 = m -> P a = true ->
  forallb (fun x => negb (P x)) m = true -> False.
Proof.
  intros <- Ha Hm. rewrite forallb_app in Hm. cbn in Hm.
  rewrite Ha in Hm. cbn in Hm. rewrite andb_false_r in Hm. discriminate.
Qed.

Lemma split_unique {A} (P : A -> bool) (l1 l2 m1 m2 : list A) (a b : A) :
  l1 ++ a :: l2 = m1 ++ b :: m2 -> P a = true ->
  forallb (fun x => negb (P x)) m1 = true ->
  forallb (fun x => negb (P x)) m2 = true ->
  l1 = m1 /\ a = b /\ l2 = m2.
Proof.
  revert m1. induction l1 as [|x l1 IH]; intros [|y m1] Heq Ha H1 H2; cbn in *.
  - inversion Heq; auto.
  - inversion Heq; subst. rewrite Ha in H1. discriminate.
  - inversion Heq; subst. exfalso.
    eapply (@no_split _ P l1 l2 _ a); [reflexivity|exact Ha|exact H2].
  - inversion Heq; subst. apply andb_prop in H1 as [_ H1].
    destruct (IH m1 H3 Ha H1 H2) as (-> & -> & ->). auto.
Qed.

Lemma new_events_of_trace (w w' : world) (evs : list event) :
  trace w' = trace w ++ evs -> new_events w w' = evs.
Proof.
  intros H. unfold new_events. rewrite H, skipn_app, skipn_all, Nat.sub_diag.
  reflexivity.
Qed.

(** A failed call in a run of the sequencer: it is the failed form of a
    planned call, made with the sessions [open]; after it the sequencer only
    closes them, and the exception of the call leaves the sequencer. *)
Lemma decommission_stops_at_the_failure (E : environment)
    (brokers : list broker) (jolokia_port : Z) (jolokia_prefix : string)
    (check_interval check_count unhealthy_time_limit skip : Z) (verbose : bool)
    (pre_stop_task post_stop_task : list task_instance)
    (start_command stop_command : string) (ssh_password : option string)
    (w : world) (before after : list event) (bad : event) :
  let rw := execute_rolling_decommission E brokers jolokia_port jolokia_prefix
              check_interval check_count unhealthy_time_limit skip verbose
              pre_stop_task post_stop_task start_command stop_command
              ssh_password w in
  new_events w (snd rw) = before ++ bad :: after ->
  is_failure bad = true ->
  exists good e open last,
    failure good = Some (bad, e) /\
    session_rule open good last = true /\
    after = map EvSshClose open /\
    fst rw = Raise e.
Proof.
  intros rw Hsplit Hbad. subst rw.
  destruct (execute_rolling_decommission _ _ _ _ _ _ _ _ _ _ _ _ _ _ w) as [r w'] eqn:Ex.
  apply decommission_follows_plan in Ex as (evs & -> & Hu).
  cbn [fst snd] in *. rewrite new_events_app in Hsplit. symmetry in Hsplit.
  pose proof (plan_has_no_failure brokers jolokia_port jolokia_prefix
                check_interval check_count unhealthy_time_limit skip
                pre_stop_task post_stop_task stop_command) as Hok.
  pose proof (plan_scoped brokers jolokia_port jolokia_prefix
                check_interval check_count unhealthy_time_limit skip
                pre_stop_task post_stop_task stop_command) as Hs.
  destruct r as [[]|e]; simpl in Hu.
  { subst evs. exfalso. eapply (no_split is_failure); eauto. }
  destruct Hu as (k & good & bad' & Hk & Hfail & ->).
  apply nth_error_split in Hk as (l1 & l2 & Hplan & <-).
  rewrite Hplan in *.
  replace (firstn (List.length l1) (l1 ++ good :: l2)) with l1 in Hsplit
    by (rewrite firstn_app, firstn_all, Nat.sub_diag; cbn [firstn];
        now rewrite app_nil_r).
  rewrite forallb_app in Hok. apply andb_prop in Hok as [Hok1 _].
  apply scoped_split in Hs. rewrite andb_true_r in Hs.
  apply split_unique with (P := is_failure) in Hsplit as (_ & <- & ->); auto.
  - exists good, e, (sessions_after [] l1), (is_nil l2). repeat split; auto.
  - apply closing_has_no_failure.
Qed.




(** * More properties of the code *)

(** ** Option validation *)

(** X1: [validate_opts] never raises and only prints.  It returns [False] (the
    options are valid) exactly when [0 <= skip < brokers_num] and
    [check_count], [unhealthy_time_limit] and [check_interval] are all
    non-negative; valid options print nothing, except the warning when
    [check_count] is [0]. *)
Theorem validate_opts_accepts_exactly (opts : options) (brokers_num : Z)
    (w : world) :
  exists invalid evs,
    validate_opts opts brokers_num w
      = (Return invalid, mkWorld (trace w ++ evs) (stdin w)) /\
    forallb is_print evs = true /\
    (invalid = false <->
       0 <= skip opts < brokers_num /\ 0 <= check_count opts /\
       0 <= unhealthy_time_limit opts /\ 0 <= check_interval opts) /\
    (invalid = false ->
       evs = if check_count opts =? 0
             then [EvPrint "Warning: no check will be performed"] else []).
Proof.
  unfold validate_opts.
  destruct (skip opts <? 0) eqn:H1.
  { apply Z.ltb_lt in H1. do 2 eexists.
    repeat split; try reflexivity; try discriminate; intros; lia. }
  apply Z.ltb_ge in H1. cbn [orb].
  destruct (skip opts >=? brokers_num) eqn:H2.
  { rewrite Z.geb_leb in H2. apply Z.leb_le in H2. do 2 eexists.
    repeat split; try reflexivity; try discriminate; intros; lia. }
  rewrite Z.geb_leb in H2. apply Z.leb_gt in H2.
  destruct (check_count opts <? 0) eqn:H3.
  { apply Z.ltb_lt in H3. do 2 eexists.
    repeat split; try reflexivity; try discriminate; intros; lia. }
  apply Z.ltb_ge in H3.
  destruct (unhealthy_time_limit opts <? 0) eqn:H4.
  { apply Z.ltb_lt in H4. do 2 eexists.
    repeat split; try reflexivity; try discriminate; intros; lia. }
  apply Z.ltb_ge in H4.
  destruct (check_count opts =? 0) eqn:H5;
    destruct (check_interval opts <? 0) eqn:H6;
    try apply Z.ltb_lt in H6; try apply Z.ltb_ge in H6.
  - exists true, [EvPrint "Warning: no check will be performed";
                  EvPrint "Error: --check-interval must be >= 0"].
    cbn. rewrite <- app_assoc.
    repeat split; try reflexivity; try discriminate; intros; lia.
  - exists false, [EvPrint "Warning: no check will be performed"].
    repeat split; try reflexivity; intros; lia.
  - exists true, [EvPrint "Error: --check-interval must be >= 0"].
    repeat split; try reflexivity; try discriminate; intros; lia.
  - exists false, []. cbn. rewrite trace_nil_r.
    repeat split; try reflexivity; intros; lia.
Qed.

(** ** The requested broker ids *)

Lemma validate_ids_loop_output (all_ids subset_ids : list Z) (valid : bool)
    (w : world) :
  for_fold subset_ids valid (fun subset_id valid =>
    bind (if negb (int_in subset_id all_ids)
          then print ("Error: user specified broker id " ++ str_of_int subset_id
                      ++ " does not exist in cluster.")%string
          else ret tt)
         (fun _ => ret (valid && int_in subset_id all_ids))) w
  = (Return (valid && forallb (fun i => int_in i all_ids) subset_ids),
     mkWorld (trace w ++ map missing_id_line
                (filter (fun i => negb (int_in i all_ids)) subset_ids))
             (stdin w)).
Proof.
  revert valid w. induction subset_ids as [|i l IH]; intros valid w.
  - cbn. now rewrite trace_nil_r, andb_true_r.
  - cbn [for_fold forallb filter].
    destruct (int_in i all_ids) eqn:Hi; cbn [negb].
    + erewrite bind_return by reflexivity. rewrite IH.
      now rewrite !andb_true_r.
    + erewrite bind_return by reflexivity. rewrite IH. cbn [trace stdin map].
      rewrite <- app_assoc, !andb_false_r. reflexivity.
Qed.

(** X2: [validate_broker_ids_subset] returns [True] exactly when every requested
    id is one of the cluster's ids, and it prints one error line for each
    requested id that is not, in the order (and as many times as) they were
    requested; it does not stop at the first missing id. *)
Theorem validate_broker_ids_subset_reports_every_missing_id
    (broker_ids subset_ids : list Z) (w : world) :
  exists valid,
    validate_broker_ids_subset broker_ids subset_ids w
      = (Return valid,
         mkWorld (trace w ++ map missing_id_line
                    (filter (fun i => negb (int_in i broker_ids)) subset_ids))
                 (stdin w)) /\
    (valid = true <-> incl subset_ids broker_ids).
Proof.
  exists (forallb (fun i => int_in i broker_ids) subset_ids). split.
  - apply (validate_ids_loop_output broker_ids subset_ids true w).
  - rewrite forallb_forall. unfold incl, int_in. split.
    + intros H i Hi. apply H, existsb_exists in Hi as (x & Hx & Heq).
      apply Z.eqb_eq in Heq. now subst.
    + intros H i Hi. apply existsb_exists. exists i. split; [auto|apply Z.eqb_refl].
Qed.

(** ** The confirmation prompt *)

Lemma ask_confirmation_loop_skips (junk lines : list string) (tr : list event) :
  forallb (fun l => negb (says_yes l) && negb (says_no l)) junk = true ->
  ask_confirmation_loop (junk ++ lines) tr
  = ask_confirmation_loop lines (tr ++ retries junk).
Proof.
  revert tr. induction junk as [|l junk IH]; intros tr H.
  - cbn. now rewrite app_nil_r.
  - cbn [forallb] in H. apply andb_prop in H as [Hl Hjunk].
    apply andb_prop in Hl as [Hy Hn].
    unfold says_yes in Hy. unfold says_no in Hn.
    apply negb_true_iff in Hy. apply negb_true_iff in Hn.
    cbn [app ask_confirmation_loop]. rewrite Hy, Hn, IH by exact Hjunk.
    f_equal. unfold retries. cbn [flat_map app].
    now rewrite <- !app_assoc.
Qed.

(** X3: [ask_confirmation] goes through the input lines until one of them is
    an answer ([yes]/[y] or [no]/[n] in any letter case): it returns [True]
    for a yes and [False] for a no, leaves the lines after the answer
    unread, and has printed the prompt once per line read and the reminder
    once per line that was not an answer. *)
Theorem ask_confirmation_takes_first_answer (junk : list string)
    (answer : string) (rest : list string) (w : world) :
  stdin w = junk ++ answer :: rest ->
  forallb (fun l => negb (says_yes l) && negb (says_no l)) junk = true ->
  says_yes answer || says_no answer = true ->
  ask_confirmation w
  = (Return (says_yes answer),
     mkWorld (trace w ++ retries junk ++ [confirmation_prompt]) rest).
Proof.
  intros Hin Hjunk Hans. unfold ask_confirmation. rewrite Hin.
  rewrite ask_confirmation_loop_skips by exact Hjunk.
  cbn [ask_confirmation_loop]. fold (says_yes answer). fold (says_no answer).
  destruct (says_yes answer); cbn [orb] in Hans.
  - now rewrite <- app_assoc.
  - rewrite Hans. now rewrite <- app_assoc.
Qed.

Lemma ask_confirmation_takes_first_answer_witness :
  (stdin (mkWorld [] ["maybe"; "YeS"; "no"]) = ["maybe"] ++ "YeS" :: ["no"] /\
   forallb (fun l => negb (says_yes l) && negb (says_no l)) ["maybe"] = true /\
   says_yes "YeS" || says_no "YeS" = true) /\
  ask_confirmation (mkWorld [] ["maybe"; "YeS"; "no"])
  = (Return true,
     mkWorld [confirmation_prompt; confirmation_retry; confirmation_prompt]
             ["no"]).
Proof.
  split; [repeat split|].
  exact (ask_confirmation_takes_first_answer ["maybe"] "YeS" ["no"]
           (mkWorld [] ["maybe"; "YeS"; "no"]) eq_refl eq_refl eq_refl).
Defined.

(** X4: When the input ends before any line is an answer, [ask_confirmation]
    raises [EOFError] (from [input()]) after a last prompt: it never
    decides by itself. *)
Theorem ask_confirmation_without_answer (w : world) :
  forallb (fun l => negb (says_yes l) && negb (says_no l)) (stdin w) = true ->
  ask_confirmation w
  = (Raise EOFError,
     mkWorld (trace w ++ retries (stdin w) ++ [confirmation_prompt]) []).
Proof.
  intros Hjunk. unfold ask_confirmation.
  rewrite <- (app_nil_r (stdin w)) at 1.
  rewrite ask_confirmation_loop_skips by exact Hjunk.
  cbn [ask_confirmation_loop]. now rewrite <- app_assoc.
Qed.

Lemma ask_confirmation_without_answer_witness :
  forallb (fun l => negb (says_yes l) && negb (says_no l))
    (stdin (mkWorld [] ["yes please"; ""])) = true /\
  ask_confirmation (mkWorld [] ["yes please"; ""])
  = (Raise EOFError,
     mkWorld [confirmation_prompt; confirmation_retry; confirmation_prompt;
              confirmation_retry; confirmation_prompt] []).
Proof.
  split; [reflexivity|].
  exact (ask_confirmation_without_answer (mkWorld [] ["yes please"; ""]) eq_refl).
Defined.

(** ** What [get_task_class] returns *)

Lemma dict_set_keys_back (k v k' : string) (d : list (string * string)) :
  k' = k \/ In k' (map fst d) -> In k' (map fst (dict_set k v d)).
Proof.
  induction d as [|[k0 v0] d IH]; cbn.
  - intros [H|[]]; auto.
  - destruct (String.eqb k k0) eqn:Hk; cbn.
    + apply String.eqb_eq in Hk. subst. intros [H|[H|H]]; auto.
    + intros [H|[H|H]]; auto.
Qed.

Lemma dict_set_nodup (k v : string) (d : list (string * string)) :
  NoDup (map fst d) -> NoDup (map fst (dict_set k v d)).
Proof.
  induction d as [|[k0 v0] d IH]; cbn; intros H.
  - constructor; [tauto|constructor].
  - destruct (String.eqb k k0) eqn:Hk; cbn.
    + apply String.eqb_eq in Hk. now subst.
    + inversion H; subst. constructor; [|auto].
      intros Hin. apply dict_set_keys in Hin as [Heq|Hin]; [|contradiction].
      subst. now rewrite String.eqb_refl in Hk.
Qed.

Lemma dict_fold_keys (pairs d : list (string * string)) (k : string) :
  In k (map fst pairs) \/ In k (map fst d) ->
  In k (map fst (fold_left (fun d kv => dict_set (fst kv) (snd kv) d) pairs d)).
Proof.
  revert d. induction pairs as [|[k0 v0] l IH]; intros d; cbn.
  - tauto.
  - intros H. apply IH. destruct H as [[H|H]|H]; auto.
    + right. apply dict_set_keys_back. auto.
    + right. apply dict_set_keys_back. auto.
Qed.

Lemma dict_fold_nodup (pairs d : list (string * string)) :
  NoDup (map fst d) ->
  NoDup (map fst (fold_left (fun d kv => dict_set (fst kv) (snd kv) d) pairs d)).
Proof.
  revert d. induction pairs as [|[k0 v0] l IH]; intros d H; cbn; auto.
  apply IH, dict_set_nodup, H.
Qed.

Lemma task_loop_result (E : environment) (d : list (string * string))
    (pre post : list task_instance) (w : world) :
  for_fold d (pre, post) (fun '(func, task_args) lists =>
    for_fold [PreStopTask; PostStopTask] lists
      (fun task_class '(pre_stop_tasks, post_stop_tasks) =>
         match dynamic_import E func task_class with
         | Some imported_class =>
             if task_class_is task_class PreStopTask then
               ret (pre_stop_tasks ++ [mkTask imported_class task_args],
                    post_stop_tasks)
             else if task_class_is task_class PostStopTask then
               ret (pre_stop_tasks,
                    post_stop_tasks ++ [mkTask imported_class task_args])
             else
               bind (print ("ERROR: Class is not a type of Pre/Post StopTask:"
                            ++ func)%string)
                    (fun _ => sys_exit 1)
         | None => ret (pre_stop_tasks, post_stop_tasks)
         end)) w
  = (Return (pre ++ flat_map (pre_stop_of E) d,
             post ++ flat_map (post_stop_of E) d), w).
Proof.
  revert pre post. induction d as [|[func arg] d IH]; intros pre post.
  - cbn. now rewrite !app_nil_r.
  - cbn [for_fold flat_map]. unfold pre_stop_of at 1, post_stop_of at 1.
    cbn [fst snd].
    destruct (dynamic_import E func PreStopTask) as [c1|] eqn:H1;
      destruct (dynamic_import E func PostStopTask) as [c2|] eqn:H2;
      (erewrite bind_return;
       [|unfold bind, ret; cbn; rewrite ?H1, ?H2; cbn; reflexivity]);
      rewrite IH; cbn [app]; now rewrite <- ?app_assoc, ?app_nil_r.
Qed.

(** X5: [get_task_class] returns, for the dict that pairs references with
    arguments, the pre-stop instances of its entries and the post-stop
    instances of its entries, each list in the dict's order: a module that
    holds classes of both kinds gives an instance to both lists, one that
    holds neither gives nothing.  The dict has every paired reference as a
    key exactly once, so a reference that is given several times is loaded
    once. *)
Theorem get_task_class_loads_each_reference_once (E : environment)
    (tasks task_args : list string) (w : world) :
  let entries := dict (zip tasks task_args) in
  get_task_class E tasks task_args w
  = (Return (flat_map (pre_stop_of E) entries,
             flat_map (post_stop_of E) entries), w) /\
  NoDup (map fst entries) /\
  (forall func, In func (map fst entries)
                <-> In func (firstn (List.length task_args) tasks)).
Proof.
  intros entries. split; [|split].
  - unfold get_task_class. fold entries.
    apply (task_loop_result E entries [] [] w).
  - apply dict_fold_nodup. constructor.
  - intros func. split.
    + intros H. apply dict_keys, in_map_iff in H as ([f a] & Hf & Hin).
      cbn in Hf. subst. eapply zip_keys_in; eassumption.
    + intros H. apply dict_fold_keys. left. clear entries.
      revert task_args H. induction tasks as [|t tasks IH]; intros [|a args];
        cbn; try tauto.
      intros [H|H]; auto.
Qed.




(** ** Which brokers a run stops *)

Lemma stop_operations_firstn (k : nat) (l : list event) :
  exists j, stop_operations (firstn k l) = firstn j (stop_operations l).
Proof.
  revert k. induction l as [|e l IH]; intros [|k]; try (now exists 0%nat).
  destruct (IH k) as (j & Hj). cbn [firstn].
  destruct e; cbn [stop_operations]; try (now exists j).
  exists (S j). cbn. now rewrite Hj.
Qed.

Lemma enumerate_from_hosts {A} (l : list A) (n : Z) :
  map snd (enumerate_from n l) = l.
Proof. revert n. induction l; intros n; cbn; [auto|now rewrite IHl]. Qed.

Lemma stop_operations_cycles (brokers : list broker) (jolokia_port : Z)
    (jolokia_prefix : string)
    (check_interval check_count unhealthy_time_limit skip : Z)
    (pre_stop_task post_stop_task : list task_instance) (stop_command : string)
    (numbered : list (Z * string)) :
  stop_operations
    (cycles_plan brokers jolokia_port jolokia_prefix check_interval check_count
       unhealthy_time_limit skip pre_stop_task post_stop_task stop_command
       numbered)
  = map snd numbered.
Proof.
  induction numbered as [|[n host] l IH]; [reflexivity|].
  unfold cycles_plan in *. cbn [flat_map map snd].
  rewrite stop_operations_app, IH, stop_operations_cycle. reflexivity.
Qed.

Lemma stop_operations_closing (l : list event) : stop_operations (closing l) = [].
Proof. unfold closing. induction (sessions_after [] l); cbn; auto. Qed.

(** X7: Whatever happens, the hosts on which the stop operation is called form
    an initial segment of [all_hosts[skip:]], in that order: no broker is
    stopped out of turn, none twice, and none of the skipped ones.  When
    the run completes they are all of [all_hosts[skip:]]. *)
Theorem stops_follow_the_broker_list (E : environment)
    (brokers : list broker) (jolokia_port : Z) (jolokia_prefix : string)
    (check_interval check_count unhealthy_time_limit skip : Z) (verbose : bool)
    (pre_stop_task post_stop_task : list task_instance)
    (start_command stop_command : string) (ssh_password : option string)
    (w : world) :
  let rw := execute_rolling_decommission E brokers jolokia_port jolokia_prefix
              check_interval check_count unhealthy_time_limit skip verbose
              pre_stop_task post_stop_task start_command stop_command
              ssh_password w in
  let todo := slice_from skip (map snd brokers) in
  (exists k, stop_operations (new_events w (snd rw)) = firstn k todo) /\
  (fst rw = Return tt -> stop_operations (new_events w (snd rw)) = todo).
Proof.
  intros rw todo. subst rw.
  destruct (execute_rolling_decommission _ _ _ _ _ _ _ _ _ _ _ _ _ _ w) as [r w'] eqn:Ex.
  apply decommission_follows_plan in Ex as (evs & -> & Hu).
  cbn [fst snd]. rewrite new_events_app.
  assert (Hplan : stop_operations
            (decommission_plan brokers jolokia_port jolokia_prefix check_interval
               check_count unhealthy_time_limit skip pre_stop_task
               post_stop_task stop_command) = todo).
  { unfold decommission_plan. rewrite stop_operations_app, stop_operations_cycles.
    unfold enumerate. rewrite enumerate_from_hosts. cbn. apply app_nil_r. }
  split.
  - destruct r as [[]|e]; simpl in Hu.
    + subst evs. exists (List.length todo). now rewrite Hplan, firstn_all.
    + destruct Hu as (k & good & bad & Hk & Hfail & ->).
      destruct (stop_operations_firstn k
                  (decommission_plan brokers jolokia_port jolokia_prefix
                     check_interval check_count unhealthy_time_limit skip
                     pre_stop_task post_stop_task stop_command)) as (j & Hj).
      exists j. rewrite stop_operations_app, Hj, Hplan.
      replace (stop_operations (bad :: closing _)) with (@nil string);
        [apply app_nil_r|].
      destruct good as [| | | |t h [|]|hs p x i c l [|]| |]; simpl in Hfail;
        inversion Hfail; subst; cbn [stop_operations];
        now rewrite stop_operations_closing.
  - intros ->. simpl in Hu. now subst evs.
Qed.

Lemma stops_follow_the_broker_list_witness :
  let rw := execute_rolling_decommission calm [(1, "A"); (2, "B"); (3, "C")]
              8778 "jolokia/" 10 12 600 (-2) false [] [] "start" "stop" None
              fresh in
  fst rw = Return tt /\
  stop_operations (new_events fresh (snd rw)) = ["B"; "C"].
Proof.
  split; [reflexivity|].
  exact (proj2 (stops_follow_the_broker_list calm [(1, "A"); (2, "B"); (3, "C")]
                  8778 "jolokia/" 10 12 600 (-2) false [] [] "start" "stop"
                  None fresh) eq_refl).
Defined.

(** ** Nothing to process *)

Lemma slice_from_beyond {A} (skip : Z) (l : list A) :
  len l <= skip -> slice_from skip l = [].
Proof.
  intros H. unfold slice_from, len in *.
  replace (0 <=? skip) with true by (symmetry; apply Z.leb_le; lia).
  apply skipn_all2. lia.
Qed.

(** X8: Called with [skip] at or beyond the number of brokers, the sequencer
    connects to no host and runs no hook: all it does is the closing
    stability wait, whose outcome is the outcome of the run. *)
Theorem skip_beyond_the_list_only_waits (E : environment)
    (brokers : list broker) (jolokia_port : Z) (jolokia_prefix : string)
    (check_interval check_count unhealthy_time_limit skip : Z) (verbose : bool)
    (pre_stop_task post_stop_task : list task_instance)
    (start_command stop_command : string) (ssh_password : option string)
    (w : world) :
  len brokers <= skip ->
  exists ok : bool,
    execute_rolling_decommission E brokers jolokia_port jolokia_prefix
      check_interval check_count unhealthy_time_limit skip verbose
      pre_stop_task post_stop_task start_command stop_command ssh_password w
    = (if ok then Return tt else Raise WaitTimeoutException,
       mkWorld (trace w ++ [EvWait (map snd brokers) jolokia_port jolokia_prefix
                              check_interval check_count unhealthy_time_limit ok])
               (stdin w)).
Proof.
  intros Hskip. unfold execute_rolling_decommission.
  rewrite slice_from_beyond by (unfold len in *; now rewrite length_map).
  cbn [enumerate enumerate_from for_each].
  erewrite bind_return by reflexivity. unfold wait_for_stable_cluster.
  eexists. reflexivity.
Qed.

Lemma skip_beyond_the_list_only_waits_witness :
  len ([(1, "A"); (2, "B")] : list broker) <= 2 /\
  exists ok : bool,
    execute_rolling_decommission calm [(1, "A"); (2, "B")] 8778 "jolokia/" 10
      12 600 2 false [task_p] [task_q] "start" "stop" None fresh
    = (if ok then Return tt else Raise WaitTimeoutException,
       mkWorld (trace fresh ++ [EvWait (map snd [(1, "A"); (2, "B")]) 8778
                                  "jolokia/" 10 12 600 ok])
               (stdin fresh)).
Proof.
  assert (H : len ([(1, "A"); (2, "B")] : list broker) <= 2) by (cbn; lia).
  split; [exact H|].
  exact (@skip_beyond_the_list_only_waits calm [(1, "A"); (2, "B")] 8778
           "jolokia/" 10 12 600 2 false [task_p] [task_q] "start" "stop" None
           fresh H).
Defined.

(** ** No command is ever sent *)

Lemma commands_issued_none (l : list event) :
  forallb (fun e => negb (is_command e)) l = true -> commands_issued l = [].
Proof.
  induction l as [|e l IH]; cbn; [auto|]. intros H.
  apply andb_prop in H as [He Hl]. destruct e; try discriminate; auto.
Qed.

Lemma plan_has_no_command (brokers : list broker) (jolokia_port : Z)
    (jolokia_prefix : string)
    (check_interval check_count unhealthy_time_limit skip : Z)
    (pre_stop_task post_stop_task : list task_instance) (stop_command : string) :
  forallb (fun e => negb (is_command e))
    (decommission_plan brokers jolokia_port jolokia_prefix check_interval
       check_count unhealthy_time_limit skip pre_stop_task post_stop_task
       stop_command) = true.
Proof.
  assert (Hhooks : forall tasks host,
            forallb (fun e => negb (is_command e)) (hooks_plan tasks host) = true)
    by (intros tasks host; induction tasks; cbn; auto).
  unfold decommission_plan, cycles_plan. rewrite forallb_app. cbn.
  rewrite andb_true_r.
  induction (enumerate _) as [|[n host] l IH]; [reflexivity|].
  cbn [flat_map]. rewrite forallb_app, IH, andb_true_r.
  unfold cycle_plan, body_plan. cbn [forallb is_command negb andb].
  rewrite !forallb_app, !Hhooks. reflexivity.
Qed.

(** X9: On every input and whatever happens, [execute_rolling_decommission]
    sends no command over any SSH connection - neither [stop_command] nor
    [start_command]: the sessions are opened and closed, and
    [decommission_broker] is called, but nothing is executed on the
    hosts. *)
Theorem decommission_sends_no_command (E : environment)
    (brokers : list broker) (jolokia_port : Z) (jolokia_prefix : string)
    (check_interval check_count unhealthy_time_limit skip : Z) (verbose : bool)
    (pre_stop_task post_stop_task : list task_instance)
    (start_command stop_command : string) (ssh_password : option string)
    (w : world) :
  commands_issued
    (new_events w
       (snd (execute_rolling_decommission E brokers jolokia_port jolokia_prefix
               check_interval check_count unhealthy_time_limit skip verbose
               pre_stop_task post_stop_task start_command stop_command
               ssh_password w))) = [].
Proof.
  destruct (execute_rolling_decommission _ _ _ _ _ _ _ _ _ _ _ _ _ _ w) as [r w'] eqn:Ex.
  apply decommission_follows_plan in Ex as (evs & -> & Hu).
  cbn [snd]. rewrite new_events_app. apply commands_issued_none.
  pose proof (plan_has_no_command brokers jolokia_port jolokia_prefix
                check_interval check_count unhealthy_time_limit skip
                pre_stop_task post_stop_task stop_command) as Hplan.
  destruct r as [[]|e]; simpl in Hu; [now subst|].
  destruct Hu as (k & good & bad & Hk & Hfail & ->).
  rewrite forallb_app, (forall_firstn _ k _ Hplan). cbn [forallb andb].
  replace (negb (is_command bad)) with true
    by (destruct good as [| | | |t h [|]|hs p x i c l [|]| |]; simpl in Hfail;
        inversion Hfail; reflexivity).
  unfold closing. induction (sessions_after [] _); cbn; auto.
Qed.

(** ** A run in which nothing fails *)

Section NothingFails.

Variable E : environment.
Hypothesis calm_world : never_fails E.

Lemma runs_to_ret {A} (a : A) : runs_to [] (ret a).
Proof. intros w. exists a. cbn. now rewrite trace_nil_r. Qed.

Lemma runs_to_emit (e : event) : runs_to [e] (emit e).
Proof. intros w. now exists tt. Qed.

Lemma runs_to_bind {A B} (p q : list event) (m : M A) (f : A -> M B) :
  runs_to p m -> (forall a, runs_to q (f a)) -> runs_to (p ++ q) (bind m f).
Proof.
  intros Hm Hf w. destruct (Hm w) as (a & Ha).
  destruct (Hf a (mkWorld (trace w ++ p) (stdin w))) as (b & Hb).
  exists b. erewrite bind_return by exact Ha. rewrite Hb. cbn.
  now rewrite app_assoc.
Qed.

Lemma runs_to_execute_task (tasks : list task_instance) (host : string) :
  runs_to (hooks_plan tasks host) (execute_task E tasks host).
Proof.
  unfold execute_task. induction tasks as [|t tasks IH]; cbn [for_each hooks_plan map].
  - apply runs_to_ret.
  - apply (@runs_to_bind _ _ [EvTask t host true]); [|intros _; exact IH].
    intros w. exists tt. unfold run_task.
    now rewrite (proj1 calm_world).
Qed.

Lemma runs_to_wait (hosts : list string) (port : Z) (prefix : string)
    (interval count limit : Z) :
  runs_to [EvWait hosts port prefix interval count limit true]
    (wait_for_stable_cluster E hosts port prefix interval count limit).
Proof.
  intros w. exists tt. unfold wait_for_stable_cluster.
  now rewrite (proj1 (proj2 calm_world)), orb_true_r.
Qed.

Lemma runs_to_with_ssh {A} (p : list event) (host : string) (fa su : bool)
    (attempts timeout : Z) (password : option string) (body : connection -> M A) :
  (forall c, runs_to p (body c)) ->
  runs_to (EvSshOpen host :: p ++ [EvSshClose host])
    (with_ssh E host fa su attempts timeout password body).
Proof.
  intros Hb w. unfold with_ssh. rewrite (proj2 (proj2 calm_world)).
  destruct (Hb (mkConnection host) (mkWorld (trace w ++ [EvSshOpen host]) (stdin w)))
    as (a & Ha).
  exists a. rewrite Ha. cbn. now rewrite <- !app_assoc.
Qed.

Lemma decommission_runs_to_plan (brokers : list broker) (jolokia_port : Z)
    (jolokia_prefix : string)
    (check_interval check_count unhealthy_time_limit skip : Z) (verbose : bool)
    (pre_stop_task post_stop_task : list task_instance)
    (start_command stop_command : string) (ssh_password : option string) :
  runs_to
    (decommission_plan brokers jolokia_port jolokia_prefix check_interval
       check_count unhealthy_time_limit skip pre_stop_task post_stop_task
       stop_command)
    (execute_rolling_decommission E brokers jolokia_port jolokia_prefix
       check_interval check_count unhealthy_time_limit skip verbose
       pre_stop_task post_stop_task start_command stop_command ssh_password).
Proof.
  unfold decommission_plan, execute_rolling_decommission, cycles_plan.
  apply runs_to_bind; [|intros _; apply runs_to_wait].
  induction (enumerate _) as [|[n host] l IH]; cbn [for_each flat_map].
  - apply runs_to_ret.
  - apply runs_to_bind; [|intros _; exact IH].
    unfold cycle_plan. apply runs_to_with_ssh. intros c. unfold body_plan.
    apply runs_to_bind; [apply runs_to_execute_task|intros _].
    apply runs_to_bind; [apply runs_to_wait|intros _].
    apply runs_to_bind; [apply runs_to_emit|intros _].
    apply runs_to_bind; [apply runs_to_emit|intros _].
    apply runs_to_execute_task.
Qed.

End NothingFails.

(** X10: When no hook fails, the cluster always settles and every host accepts
    the connection, [execute_rolling_decommission] returns, and it has done
    the whole plan: the cycle of every broker of [all_hosts[skip:]], in
    order, and the closing wait. *)
Theorem decommission_completes_when_nothing_fails (E : environment)
    (brokers : list broker) (jolokia_port : Z) (jolokia_prefix : string)
    (check_interval check_count unhealthy_time_limit skip : Z) (verbose : bool)
    (pre_stop_task post_stop_task : list task_instance)
    (start_command stop_command : string) (ssh_password : option string)
    (w : world) :
  never_fails E ->
  execute_rolling_decommission E brokers jolokia_port jolokia_prefix
    check_interval check_count unhealthy_time_limit skip verbose
    pre_stop_task post_stop_task start_command stop_command ssh_password w
  = (Return tt,
     mkWorld (trace w
              ++ decommission_plan brokers jolokia_port jolokia_prefix
                   check_interval check_count unhealthy_time_limit skip
                   pre_stop_task post_stop_task stop_command)
             (stdin w)).
Proof.
  intros HE.
  destruct (decommission_runs_to_plan HE brokers jolokia_port jolokia_prefix
              check_interval check_count unhealthy_time_limit skip verbose
              pre_stop_task post_stop_task start_command stop_command
              ssh_password w) as ([] & H).
  exact H.
Qed.

Lemma calm_never_fails : never_fails calm.
Proof. repeat split. Qed.

Lemma decommission_completes_when_nothing_fails_witness :
  never_fails calm /\
  execute_rolling_decommission calm [(1, "A"); (2, "B")] 8778 "jolokia/" 10 12
    600 0 false [task_p] [task_q] "start" "stop" None fresh
  = (Return tt,
     mkWorld (trace fresh
              ++ decommission_plan [(1, "A"); (2, "B")] 8778 "jolokia/" 10 12
                   600 0 [task_p] [task_q] "stop")
             (stdin fresh)).
Proof.
  split; [exact calm_never_fails|].
  exact (decommission_completes_when_nothing_fails [(1, "A"); (2, "B")] 8778
           "jolokia/" 10 12 600 0 false [task_p] [task_q] "start" "stop" None
           fresh calm_never_fails).
Defined.

(** ** [run], stage by stage *)

Lemma print_brokers_output (c : cluster_config) (brokers : list broker) (w : world) :
  print_brokers c brokers w
  = (Return tt, mkWorld (trace w ++ broker_lines c brokers) (stdin w)).
Proof.
  unfold print_brokers, broker_lines.
  erewrite bind_return by reflexivity.
  assert (H : forall w0,
            for_each brokers (fun '(id, host) =>
              print ("  " ++ str_of_int id ++ ": " ++ host)%string) w0
            = (Return tt,
               mkWorld (trace w0 ++ map (fun b => EvPrint ("  " ++ str_of_int (fst b)
                                                          ++ ": " ++ snd b)%string)
                                      brokers) (stdin w0))).
  { induction brokers as [|[id host] l IH]; intros w0.
    - cbn. now rewrite trace_nil_r.
    - cbn [for_each map fst snd]. erewrite bind_return by reflexivity.
      rewrite IH. cbn. now rewrite <- app_assoc. }
  rewrite H. cbn [trace stdin]. rewrite <- app_assoc. reflexivity.
Qed.

Lemma filter_none {A} (P : A -> bool) (l : list A) :
  forallb P l = true -> filter (fun x => negb (P x)) l = [].
Proof.
  induction l as [|x l IH]; cbn; [auto|]. intros H.
  apply andb_prop in H as [Hx Hl]. rewrite Hx. cbn. auto.
Qed.

(** The part of [run] that follows the validations. *)
Lemma run_after_validation (E : environment) (opts : options) (w : world) :
  accepted E opts = true ->
  run E opts w
  = bind (match task opts with
          | Some (t0 :: ts) =>
              match task_args opts with
              | Some args => get_task_class E (t0 :: ts) args
              | None => raise TypeError
              end
          | _ => ret ([], [])
          end)
      (fun tasks =>
         let '(pre_stop_tasks, post_stop_tasks) := tasks in
         bind (print_brokers
                 (get_cluster_config E (cluster_type opts) (cluster_name opts)
                    (discovery_base_path opts))
                 (slice_from (skip opts) (selected_brokers E opts)))
           (fun _ =>
              bind (if no_confirm opts then ret true else ask_confirmation)
                (fun confirmed : bool =>
                   if confirmed then
                     bind (print "Execute rolling command")
                       (fun _ =>
                          try_except
                            (bind (opts_command opts)
                               (fun command =>
                                  command (selected_brokers E opts)
                                    (jolokia_port opts) (jolokia_prefix opts)
                                    (check_interval opts) (check_count opts)
                                    (unhealthy_time_limit opts) (skip opts)
                                    (verbose opts) pre_stop_tasks post_stop_tasks
                                    (start_command opts) (stop_command opts)
                                    (ssh_password opts)))
                            except_clauses)
                   else ret tt)))
      (mkWorld (trace w ++ accepted_output opts) (stdin w)).
Proof.
  unfold accepted, requested_ids_ok, selected_brokers. intros H.
  apply andb_prop in H as [Hids Hopts]. apply negb_true_iff in Hopts.
  unfold run.
  set (cluster := get_broker_list E _) in *.
  assert (Hv : forall (brokers : list broker),
            invalid_opts opts (len brokers) = false ->
            validate_opts opts (len brokers) w
            = (Return false, mkWorld (trace w ++ accepted_output opts) (stdin w))).
  { intros brokers Hinv.
    destruct (validate_opts_accepts_exactly opts (len brokers) w)
      as (invalid & evs & Heq & _ & Hiff & Hout).
    destruct (validate_opts_decides opts (len brokers) w) as (evs' & Heq' & _).
    rewrite Heq in Heq'. inversion Heq'; subst.
    rewrite Heq, Hinv, (Hout Hinv). reflexivity. }
  destruct (broker_ids opts) as [[|id0 ids]|] eqn:Hb.
  - erewrite bind_return by reflexivity.
    erewrite bind_return by (apply Hv; exact Hopts).
    erewrite bind_return by reflexivity. reflexivity.
  - erewrite bind_return; cycle 1.
    { erewrite bind_return
        by (apply (validate_ids_loop_output (map fst cluster) (id0 :: ids) true w)).
      cbn [andb]. rewrite Hids. cbn [negb].
      erewrite bind_return by reflexivity. reflexivity. }
    replace (filter (fun i => negb (int_in i (map fst cluster))) (id0 :: ids))
      with (@nil Z).
    2:{ symmetry. apply filter_none, Hids. }
    cbn [map]. rewrite trace_nil_r.
    erewrite bind_return by (apply Hv; exact Hopts).
    erewrite bind_return by reflexivity. reflexivity.
  - erewrite bind_return by reflexivity.
    erewrite bind_return by (apply Hv; exact Hopts).
    erewrite bind_return by reflexivity. reflexivity.
Qed.

Lemma run_loads_tasks (E : environment) (opts : options) (w : world) :
  tasks_loadable opts = true ->
  (match task opts with
   | Some (t0 :: ts) =>
       match task_args opts with
       | Some args => get_task_class E (t0 :: ts) args
       | None => raise TypeError
       end
   | _ => ret ([], [])
   end) w = (Return (loaded_tasks E opts), w).
Proof.
  unfold tasks_loadable, loaded_tasks.
  destruct (task opts) as [[|t0 ts]|]; try reflexivity.
  destruct (task_args opts) as [args|]; [|discriminate]. intros _.
  apply (proj1 (get_task_class_loads_each_reference_once E (t0 :: ts) args w)).
Qed.

(** ** [--task] without [--task-args] *)

(** X11: When [--task] is given and [--task-args] is not, [run] passes both
    validations and then dies with a [TypeError] (from [zip(tasks, None)]):
    exit status [1], before the broker list is printed and before anything
    is asked or touched. *)
Theorem run_task_without_task_args (E : environment) (opts : options)
    (w : world) (t0 : string) (ts : list string) :
  accepted E opts = true ->
  task opts = Some (t0 :: ts) -> task_args opts = None ->
  run E opts w
  = (Raise TypeError, mkWorld (trace w ++ accepted_output opts) (stdin w)) /\
  exit_code (fst (run E opts w)) = 1.
Proof.
  intros Hacc Htask Hargs. rewrite (run_after_validation E opts w Hacc).
  rewrite Htask, Hargs. split; reflexivity.
Qed.

Lemma run_task_without_task_args_witness :
  let opts := mkOptions "standard" None None None 10 12 600 8778 "jolokia/"
                true 0 false (Some ["pre.mod"]) None "service kafka start"
                "service kafka stop" None in
  (accepted calm opts = true /\ task opts = Some ["pre.mod"] /\
   task_args opts = None) /\
  run calm opts fresh
  = (Raise TypeError, mkWorld (trace fresh ++ accepted_output opts) (stdin fresh)) /\
  exit_code (fst (run calm opts fresh)) = 1.
Proof.
  intros opts. split; [repeat split|].
  exact (@run_task_without_task_args calm opts fresh "pre.mod" [] eq_refl eq_refl
           eq_refl).
Defined.

(** ** The operator declines *)

(** X12: When the options are accepted and the operator answers no, [run]
    returns normally (exit status [0]) having only printed: the
    announcement of the brokers and the prompts.  [opts.command] is not
    even looked up, and the lines after the answer are left unread. *)
Theorem run_declined_touches_nothing (E : environment) (opts : options)
    (w : world) (junk : list string) (answer : string) (rest : list string) :
  accepted E opts = true -> tasks_loadable opts = true ->
  no_confirm opts = false ->
  stdin w = junk ++ answer :: rest ->
  forallb (fun l => negb (says_yes l) && negb (says_no l)) junk = true ->
  says_yes answer = false -> says_no answer = true ->
  run E opts w
  = (Return tt,
     mkWorld (trace w ++ announced E opts ++ retries junk ++ [confirmation_prompt])
             rest) /\
  exit_code (fst (run E opts w)) = 0.
Proof.
  intros Hacc Hload Hconf Hin Hjunk Hyes Hno.
  rewrite (run_after_validation E opts w Hacc).
  erewrite bind_return by (apply run_loads_tasks; exact Hload).
  destruct (loaded_tasks E opts) as [pre post].
  erewrite bind_return by apply print_brokers_output.
  rewrite Hconf.
  erewrite bind_return.
  2:{ apply (ask_confirmation_takes_first_answer junk answer rest); cbn [stdin];
        [exact Hin|exact Hjunk|now rewrite Hyes, Hno]. }
  rewrite Hyes. cbn [trace]. unfold announced, ret. cbn [fst exit_code].
  rewrite <- !app_assoc. split; reflexivity.
Qed.

Lemma run_declined_touches_nothing_witness :
  let opts := mkOptions "standard" None None None 10 12 600 8778 "jolokia/"
                false 3 false None None "service kafka start"
                "service kafka stop" None in
  let w := mkWorld [] ["what?"; "N"; "yes"] in
  (accepted calm opts = true /\ tasks_loadable opts = true /\
   no_confirm opts = false /\ stdin w = ["what?"] ++ "N" :: ["yes"] /\
   forallb (fun l => negb (says_yes l) && negb (says_no l)) ["what?"] = true /\
   says_yes "N" = false /\ says_no "N" = true) /\
  run calm opts w
  = (Return tt,
     mkWorld (trace w ++ announced calm opts ++ retries ["what?"]
              ++ [confirmation_prompt]) ["yes"]) /\
  exit_code (fst (run calm opts w)) = 0.
Proof.
  intros opts w. split; [repeat split|].
  exact (@run_declined_touches_nothing calm opts w ["what?"] "N" ["yes"] eq_refl
           eq_refl eq_refl eq_refl eq_refl eq_refl eq_refl).
Defined.

(** ** Where [run] ends *)



Lemma ends_in_weaken {A} (P Q : result A -> list event -> Prop) (m : M A) :
  (forall r evs, P r evs -> Q r evs) -> ends_in P m -> ends_in Q m.
Proof.
  intros HPQ Hm w r w' H. destruct (Hm _ _ _ H) as (evs & Htr & HP).
  exists evs. auto.
Qed.

(** X16: Whatever the options, the environment and the input, [run] does
    nothing but print: it never opens a connection, runs a hook, waits for
    the cluster or calls a stop.  And it returns normally only when the
    operator was asked (no [--no-confirm]): with [--no-confirm] every run
    ends in an exception or an exit. *)
Theorem run_never_touches_the_cluster (E : environment) (opts : options)
    (w : world) :
  forallb is_print (new_events w (snd (run E opts w))) = true /\
  (fst (run E opts w) = Return tt -> no_confirm opts = false).
Proof.
  set (P := fun (r : result unit) (evs : list event) =>
              forallb is_print evs = true /\
              (r = Return tt -> no_confirm opts = false)).
  assert (Hrun : ends_in P (run E opts)).
  { assert (Hraise : forall e evs, forallb is_print evs = true -> P (Raise e) evs)
      by (intros e evs He; split; [exact He|discriminate]).
    assert (Hprefix : forall r p evs, forallb is_print p = true ->
                        P r evs -> P r (p ++ evs)).
    { intros r p evs Hp [He Hr]. split; [now rewrite forallb_app, Hp, He|exact Hr]. }
    unfold run.
    apply ends_in_bind; auto.
    { destruct (broker_ids opts) as [[|id0 ids]|]; try apply quiet_ret.
      apply quiet_bind; [apply quiet_validate_broker_ids_subset|].
      intros valid. apply quiet_bind; [|intros; apply quiet_ret].
      destruct valid; [apply quiet_ret|apply quiet_raise]. }
    intros brokers. apply ends_in_bind; auto; [apply quiet_validate_opts|].
    intros invalid. apply ends_in_bind; auto.
    { destruct invalid; [apply quiet_raise|apply quiet_ret]. }
    intros _. apply ends_in_bind; auto.
    { destruct (task opts) as [[|t0 ts]|]; try apply quiet_ret.
      destruct (task_args opts); [apply quiet_get_task_class|apply quiet_raise]. }
    intros [pre post]. apply ends_in_bind; auto; [apply quiet_print_brokers|].
    intros _.
    assert (Hgo : ends_in P
              (bind (print "Execute rolling command")
                 (fun _ =>
                    try_except
                      (bind (opts_command opts)
                         (fun command =>
                            command brokers (jolokia_port opts)
                              (jolokia_prefix opts) (check_interval opts)
                              (check_count opts) (unhealthy_time_limit opts)
                              (skip opts) (verbose opts) pre post
                              (start_command opts) (stop_command opts)
                              (ssh_password opts)))
                      except_clauses))).
    { intros w0 r w' H. inversion H; subst; clear H.
      exists [EvPrint "Execute rolling command"]. split; [reflexivity|].
      split; [reflexivity|discriminate]. }
    destruct (no_confirm opts) eqn:Hconf.
    - intros w0 r w' H. erewrite bind_return in H by reflexivity.
      exact (Hgo _ _ _ H).
    - apply ends_in_bind; auto; [apply quiet_ask_confirmation|].
      intros [|]; [exact Hgo|].
      intros w0 r w' H. inversion H; subst. exists [].
      split; [now rewrite app_nil_r|]. split; [reflexivity|reflexivity]. }
  destruct (run E opts w) as [r w'] eqn:Hr.
  destruct (Hrun _ _ _ Hr) as (evs & Htr & Hp & Hret).
  cbn [fst snd]. erewrite new_events_of_trace by exact Htr. split; assumption.
Qed.

Lemma run_never_touches_the_cluster_witness :
  let opts := mkOptions "standard" None None None 10 12 600 8778 "jolokia/"
                false 0 false None None "service kafka start"
                "service kafka stop" None in
  let w := mkWorld [] ["n"] in
  fst (run calm opts w) = Return tt /\
  forallb is_print (new_events w (snd (run calm opts w))) = true /\
  no_confirm opts = false.
Proof.
  intros opts w.
  destruct (run_never_touches_the_cluster calm opts w) as [Hp Hr].
  split; [reflexivity|]. split; [exact Hp|exact (Hr eq_refl)].
Defined.

(** ** How a run of the sequencer can fail *)

(** X14: When a stability wait times out during
    [execute_rolling_decommission], nothing more is done on the cluster:
    the session that is open at that moment, if any, is closed, and
    [WaitTimeoutException] leaves the sequencer. *)
Theorem decommission_stops_at_a_wait_timeout (E : environment)
    (brokers : list broker) (jolokia_port : Z) (jolokia_prefix : string)
    (check_interval check_count unhealthy_time_limit skip : Z) (verbose : bool)
    (pre_stop_task post_stop_task : list task_instance)
    (start_command stop_command : string) (ssh_password : option string)
    (w : world) (before after : list event) (hosts : list string) (port : Z)
    (prefix : string) (interval count limit : Z) :
  let rw := execute_rolling_decommission E brokers jolokia_port jolokia_prefix
              check_interval check_count unhealthy_time_limit skip verbose
              pre_stop_task post_stop_task start_command stop_command
              ssh_password w in
  new_events w (snd rw)
    = before ++ EvWait hosts port prefix interval count limit false :: after ->
  (after = [] \/ exists host, after = [EvSshClose host]) /\
  fst rw = Raise WaitTimeoutException.
Proof.
  intros rw Hsplit.
  destruct (@decommission_stops_at_the_failure E brokers jolokia_port
              jolokia_prefix check_interval check_count unhealthy_time_limit
              skip verbose pre_stop_task post_stop_task start_command
              stop_command ssh_password w _ _ _ Hsplit eq_refl)
    as (good & e & open & last & Hfail & Hrule & -> & Hr).
  fold rw in Hr. rewrite Hr.
  destruct good as [| | | |t h [|]|hs p x i c l [|]| |]; simpl in Hfail;
    inversion Hfail; subst; clear Hfail.
  cbn in Hrule. destruct open as [|h [|h' open]]; try discriminate.
  - split; [now left|reflexivity].
  - split; [right; now exists h|reflexivity].
Qed.

Lemma decommission_stops_at_a_wait_timeout_witness :
  let rw := execute_rolling_decommission never_steady
              [(1, "A"); (2, "B"); (3, "C")] 8778 "jolokia/" 10 12 600 0 false
              [task_p] [task_q] "start" "stop" None fresh in
  let evs := new_events fresh (snd rw) in
  evs = firstn 9 evs
        ++ EvWait ["A"; "B"; "C"] 8778 "jolokia/" 10 12 600 false
           :: [EvSshClose "B"] /\
  ([EvSshClose "B"] = [] \/ exists host, [EvSshClose "B"] = [EvSshClose host]) /\
  fst rw = Raise WaitTimeoutException.
Proof.
  intros rw evs.
  assert (H : evs = firstn 9 evs
                  ++ EvWait ["A"; "B"; "C"] 8778 "jolokia/" 10 12 600 false
                     :: [EvSshClose "B"])
    by (vm_compute; reflexivity).
  split; [exact H|].
  exact (@decommission_stops_at_a_wait_timeout never_steady
           [(1, "A"); (2, "B"); (3, "C")] 8778 "jolokia/" 10 12 600 0 false
           [task_p] [task_q] "start" "stop" None fresh _ _ _ _ _ _ _ _ H).
Defined.

(** X15: When a host refuses the SSH connection,
    [execute_rolling_decommission] does nothing more: no hook is run on that
    host, nothing is done for it or any later broker, and the connection
    error leaves the sequencer. *)
Theorem decommission_stops_at_a_refused_connection (E : environment)
    (brokers : list broker) (jolokia_port : Z) (jolokia_prefix : string)
    (check_interval check_count unhealthy_time_limit skip : Z) (verbose : bool)
    (pre_stop_task post_stop_task : list task_instance)
    (start_command stop_command : string) (ssh_password : option string)
    (w : world) (before after : list event) (host : string) :
  let rw := execute_rolling_decommission E brokers jolokia_port jolokia_prefix
              check_interval check_count unhealthy_time_limit skip verbose
              pre_stop_task post_stop_task start_command stop_command
              ssh_password w in
  new_events w (snd rw) = before ++ EvSshFail host :: after ->
  after = [] /\ fst rw = Raise SshError.
Proof.
  intros rw Hsplit.
  destruct (@decommission_stops_at_the_failure E brokers jolokia_port
              jolokia_prefix check_interval check_count unhealthy_time_limit
              skip verbose pre_stop_task post_stop_task start_command
              stop_command ssh_password w _ _ _ Hsplit eq_refl)
    as (good & e & open & last & Hfail & Hrule & -> & Hr).
  fold rw in Hr. rewrite Hr.
  destruct good as [| | | |t h [|]|hs p x i c l [|]| |]; simpl in Hfail;
    inversion Hfail; subst; clear Hfail.
  cbn in Hrule. destruct open; [|discriminate].
  split; reflexivity.
Qed.

Lemma decommission_stops_at_a_refused_connection_witness :
  let rw := execute_rolling_decommission d_refuses
              [(1, "A"); (2, "B"); (3, "C"); (4, "D"); (5, "E")] 8778 "jolokia/"
              10 12 600 2 false [task_p] [task_q] "start" "stop" None fresh in
  let evs := new_events fresh (snd rw) in
  evs = firstn 7 evs ++ EvSshFail "D" :: [] /\
  @nil event = [] /\ fst rw = Raise SshError.
Proof.
  intros rw evs.
  assert (H : evs = firstn 7 evs ++ EvSshFail "D" :: [])
    by (vm_compute; reflexivity).
  split; [exact H|].
  exact (@decommission_stops_at_a_refused_connection d_refuses
           [(1, "A"); (2, "B"); (3, "C"); (4, "D"); (5, "E")] 8778 "jolokia/"
           10 12 600 2 false [task_p] [task_q] "start" "stop" None fresh _ _ _ H).
Defined.

(** ** The relaxed first wait *)

Lemma wait_counts_later_cycles (brokers : list broker) (jolokia_port : Z)
    (jolokia_prefix : string)
    (check_interval check_count unhealthy_time_limit skip : Z)
    (pre_stop_task post_stop_task : list task_instance) (stop_command : string)
    (hosts : list string) (n : Z) :
  0 < n ->
  wait_counts
    (cycles_plan brokers jolokia_port jolokia_prefix check_interval check_count
       unhealthy_time_limit skip pre_stop_task post_stop_task stop_command
       (enumerate_from n hosts))
  = map (fun _ => check_count) hosts.
Proof.
  revert n. induction hosts as [|h hosts IH]; intros n Hn; [reflexivity|].
  unfold cycles_plan in *. cbn [enumerate_from flat_map map].
  rewrite wait_counts_app, wait_counts_cycle, IH by lia.
  replace (n =? 0) with false by (symmetry; apply Z.eqb_neq; lia).
  reflexivity.
Qed.

(** X17: In a run that completes, the stability wait of the first processed
    broker asks for one healthy check, whatever [check_count] is (also when
    it is [0]), and every later wait, the closing one included, asks for
    [check_count]; there is one wait per processed broker plus the closing
    one. *)
Theorem only_the_first_wait_is_relaxed (E : environment)
    (brokers : list broker) (jolokia_port : Z) (jolokia_prefix : string)
    (check_interval check_count unhealthy_time_limit skip : Z) (verbose : bool)
    (pre_stop_task post_stop_task : list task_instance)
    (start_command stop_command : string) (ssh_password : option string)
    (w : world) :
  let rw := execute_rolling_decommission E brokers jolokia_port jolokia_prefix
              check_interval check_count unhealthy_time_limit skip verbose
              pre_stop_task post_stop_task start_command stop_command
              ssh_password w in
  fst rw = Return tt ->
  wait_counts (new_events w (snd rw))
  = match slice_from skip (map snd brokers) with
    | [] => [check_count]
    | _ :: later => 1 :: map (fun _ => check_count) later ++ [check_count]
    end.
Proof.
  intros rw Hr. subst rw.
  destruct (execute_rolling_decommission _ _ _ _ _ _ _ _ _ _ _ _ _ _ w) as [r w'] eqn:Ex.
  cbn [fst snd] in *. subst r.
  apply decommission_follows_plan in Ex as (evs & -> & Hu).
  rewrite new_events_app. simpl in Hu. subst evs.
  unfold decommission_plan. rewrite wait_counts_app. unfold enumerate.
  destruct (slice_from skip (map snd brokers)) as [|h later]; [reflexivity|].
  unfold cycles_plan. cbn [enumerate_from flat_map].
  rewrite wait_counts_app, wait_counts_cycle.
  fold (cycles_plan brokers jolokia_port jolokia_prefix check_interval
          check_count unhealthy_time_limit skip pre_stop_task post_stop_task
          stop_command (enumerate_from (0 + 1) later)).
  rewrite wait_counts_later_cycles by lia. reflexivity.
Qed.

Lemma only_the_first_wait_is_relaxed_witness :
  let rw := execute_rolling_decommission calm [(1, "A"); (2, "B"); (3, "C")]
              8778 "jolokia/" 10 0 600 0 false [] [] "start" "stop" None fresh in
  fst rw = Return tt /\
  wait_counts (new_events fresh (snd rw)) = [1; 0; 0; 0].
Proof.
  split; [reflexivity|].
  exact (only_the_first_wait_is_relaxed calm [(1, "A"); (2, "B"); (3, "C")]
           8778 "jolokia/" 10 0 600 0 false [] [] "start" "stop" None fresh
           eq_refl).
Defined.

(** ** Requested ids that are not in the cluster *)

(** X18: When [--broker-ids] holds an id that is not in the cluster, [run]
    prints the error line of every such id, in the order given, and exits
    with status [1]; the other options are not looked at and nothing else
    is printed. *)
Theorem run_reports_the_missing_ids (E : environment) (opts : options)
    (w : world) (ids : list Z) :
  let cluster_ids := map fst (get_broker_list E (get_cluster_config E
                       (cluster_type opts) (cluster_name opts)
                       (discovery_base_path opts))) in
  broker_ids opts = Some ids ->
  ~ incl ids cluster_ids ->
  run E opts w
  = (Raise (SystemExit 1),
     mkWorld (trace w ++ map missing_id_line
                (filter (fun i => negb (int_in i cluster_ids)) ids))
             (stdin w)).
Proof.
  intros cluster_ids Hids Hmissing. unfold run. rewrite Hids.
  destruct ids as [|id0 ids].
  { exfalso. apply Hmissing. intros x []. }
  destruct (validate_broker_ids_subset_reports_every_missing_id cluster_ids
              (id0 :: ids) w) as (valid & Heq & Hiff).
  fold cluster_ids.
  erewrite bind_raise; [reflexivity|].
  erewrite bind_return by exact Heq.
  destruct valid; [exfalso; apply Hmissing, Hiff; reflexivity|].
  reflexivity.
Qed.

Lemma run_reports_the_missing_ids_witness :
  let opts := calm_opts 0 (-1) (Some [7; 1; 9; 7]) in
  (broker_ids opts = Some [7; 1; 9; 7] /\
   ~ incl [7; 1; 9; 7] [1; 2; 3; 4; 5]) /\
  run calm opts fresh
  = (Raise (SystemExit 1),
     mkWorld [missing_id_line 7; missing_id_line 9; missing_id_line 7] []).
Proof.
  intros opts.
  assert (H : ~ incl [7; 1; 9; 7] [1; 2; 3; 4; 5]).
  { intros Hincl. specialize (Hincl 7 (or_introl eq_refl)).
    repeat (destruct Hincl as [Hincl|Hincl]; [discriminate Hincl|]).
    exact Hincl. }
  split; [split; [reflexivity|exact H]|].
  exact (@run_reports_the_missing_ids calm opts fresh [7; 1; 9; 7] eq_refl H).
Defined.
